(** * Image-metadata Lambda: a shallow embedding of [src/app.py]

    The program is one AWS Lambda entry point, [lambda_handler], that
    routes an event either to [handle_s3_event] (an upload notification:
    read the object's metadata with [head_object] and [put_item] it into
    a DynamoDB table) or to [handle_api_gateway_event] (a lookup:
    [get_item] by [imageName] and answer with JSON).

    Python values are modelled as inductive types, Python [str] as the
    list of its Unicode code points, exceptions as an error type, and the
    two AWS collaborators together with standard output as an explicit
    world that every call threads through a state-and-exception monad. *)

From Stdlib Require Import ZArith NArith List String Ascii Lia.
From Stdlib Require DecimalString.
From stdpp Require Import base option list gmap.

Set Default Proof Using "Type".
Set Warnings "-register-all".

Local Open Scope N_scope.

(** ** Python strings *)

(** A Python [str] is a sequence of code points. *)
Abbreviation pystr := (list N).

(** An ASCII literal of the source, as a [str]. *)
Fixpoint lit (s : string) : pystr :=
  match s with
  | EmptyString => []
  | String a r => N_of_ascii a :: lit r
  end.

Definition is_prefix_b (p s : pystr) : bool :=
  bool_decide (take (length p) s = p).

(** [p in s] for two strings: [p] occurs as a contiguous slice of [s]. *)
Fixpoint str_contains (p s : pystr) : bool :=
  is_prefix_b p s ||
  match s with
  | [] => false
  | _ :: r => str_contains p r
  end.

(** ** Values *)

(** What the Lambda runtime hands to the handler: a deserialised JSON
    document.  A JSON number with a fraction or exponent arrives as a
    Python [float], kept here as mantissa and binary exponent; the
    program never computes with one. *)
Inductive json : Type :=
  | JNull
  | JBool (b : bool)
  | JInt (n : Z)
  | JFloat (m e : Z)
  | JStr (s : pystr)
  | JList (l : list json)
  | JDict (d : list (pystr * json)).

(** [decimal.Decimal]: coefficient times ten to the exponent. *)
Record PyDecimal_t : Type := mkDecimal { dec_coef : Z; dec_exp : Z }.

(** Values on the table side: what [TypeDeserializer] produces
    ([Decimal] for numbers), plus the [int] the query handler stores
    back into the item. *)
Inductive pyval : Type :=
  | PyNone
  | PyBool (b : bool)
  | PyInt (n : Z)
  | PyDecimal (d : PyDecimal_t)
  | PyStr (s : pystr)
  | PyList (l : list pyval)
  | PyDict (d : list (pystr * pyval)).

(** DynamoDB attribute values, as stored in the table. *)
Inductive attr : Type :=
  | AttrS (s : pystr)
  | AttrN (d : PyDecimal_t)
  | AttrBOOL (b : bool)
  | AttrNULL
  | AttrL (l : list attr)
  | AttrM (d : list (pystr * attr)).

(** Exceptions; every one of them derives from [Exception]. *)
Inductive exn : Type :=
  | KeyError
  | IndexError
  | TypeError
  | AttributeError
  | ValueError
  | ParamValidationError
  | ClientError (code : string)
  | EndpointConnectionError.

Inductive result (A : Type) : Type :=
  | Ok (a : A)
  | Raise (e : exn).
Arguments Ok {A} a.
Arguments Raise {A} e.

(** ** Dictionaries

    A [dict] keeps insertion order; keys of the dictionaries met here
    are strings, and a key occurs once. *)
Section Dict.
Context {V : Type}.

Definition key_eqb (a b : pystr) : bool := bool_decide (a = b).

Fixpoint dict_get (k : pystr) (d : list (pystr * V)) : option V :=
  match d with
  | [] => None
  | (k', v) :: r => if key_eqb k' k then Some v else dict_get k r
  end.

(** [k in d] *)
Definition dict_has (k : pystr) (d : list (pystr * V)) : bool :=
  match dict_get k d with Some _ => true | None => false end.

(** [d[k] = v]: an existing key keeps its position. *)
Fixpoint dict_set (k : pystr) (v : V) (d : list (pystr * V)) : list (pystr * V) :=
  match d with
  | [] => [(k, v)]
  | (k', v') :: r =>
      if key_eqb k' k then (k', v) :: r else (k', v') :: dict_set k v r
  end.
End Dict.

(** ** Subscripts and membership on event values *)

Definition json_is_str (s : pystr) (v : json) : bool :=
  match v with
  | JStr s' => key_eqb s' s
  | _ => false
  end.

(** [s in v] for a string [s]: key membership on a [dict], element
    membership on a [list], substring on a [str]; anything else is not
    iterable. *)
Definition py_in (s : pystr) (v : json) : result bool :=
  match v with
  | JDict d => Ok (dict_has s d)
  | JList l => Ok (existsb (json_is_str s) l)
  | JStr t => Ok (str_contains s t)
  | _ => Raise TypeError
  end.

(** [v[k]] for a string key [k]. *)
Definition subscript (v : json) (k : pystr) : result json :=
  match v with
  | JDict d =>
      match dict_get k d with
      | Some x => Ok x
      | None => Raise KeyError
      end
  | _ => Raise TypeError
  end.

(** [v[0]] *)
Definition subscript0 (v : json) : result json :=
  match v with
  | JList [] => Raise IndexError
  | JList (x :: _) => Ok x
  | JStr [] => Raise IndexError
  | JStr (c :: _) => Ok (JStr [c])
  | JDict _ => Raise KeyError
  | _ => Raise TypeError
  end.

(** ** [urllib.parse.unquote_plus]

    [unquote_plus] turns every [+] into a space and then percent-decodes:
    each maximal run of ASCII characters has its [%XX] escapes replaced
    by the bytes they name and is decoded as UTF-8 with
    [errors='replace']; characters outside ASCII are kept as they are. *)

Definition hexval (c : N) : option N :=
  if (48 <=? c) && (c <=? 57) then Some (c - 48)
  else if (65 <=? c) && (c <=? 70) then Some (c - 55)
  else if (97 <=? c) && (c <=? 102) then Some (c - 87)
  else None.

(** [unquote_to_bytes]: a [%] followed by two hexadecimal digits is one
    byte; any other [%] stands for itself. *)
Fixpoint unquote_to_bytes (s : pystr) : list N :=
  match s with
  | [] => []
  | c :: r =>
      if c =? 37 then
        match r with
        | h1 :: h2 :: r' =>
            match hexval h1, hexval h2 with
            | Some a, Some b => (16 * a + b) :: unquote_to_bytes r'
            | _, _ => 37 :: unquote_to_bytes r
            end
        | _ => 37 :: unquote_to_bytes r
        end
      else c :: unquote_to_bytes r
  end.

Definition replacement_char : N := 0xFFFD.

Definition is_cont (b : N) : bool := (0x80 <=? b) && (b <=? 0xBF).

(** Second byte of a three-byte form: a continuation byte that makes
    neither an overlong form (after [E0]) nor a surrogate (after [ED]). *)
Definition second_ok3 (b1 b2 : N) : bool :=
  is_cont b2 && negb (if b2 <? 0xA0 then b1 =? 0xE0 else b1 =? 0xED).

(** Second byte of a four-byte form: no overlong form (after [F0]) and
    nothing above U+10FFFF (after [F4]). *)
Definition second_ok4 (b1 b2 : N) : bool :=
  is_cont b2 && negb (if b2 <? 0x90 then b1 =? 0xF0 else b1 =? 0xF4).

(** [bytes.decode('utf-8', 'replace')]: every maximal ill-formed prefix
    of a sequence becomes one U+FFFD and decoding resumes at the byte
    that broke it. *)
Fixpoint utf8_decode (bs : list N) : pystr :=
  match bs with
  | [] => []
  | b1 :: r1 =>
      if b1 <? 0x80 then b1 :: utf8_decode r1
      else if b1 <? 0xC2 then replacement_char :: utf8_decode r1
      else if b1 <? 0xE0 then
        match r1 with
        | [] => [replacement_char]
        | b2 :: r2 =>
            if is_cont b2
            then ((b1 - 0xC0) * 64 + (b2 - 0x80)) :: utf8_decode r2
            else replacement_char :: utf8_decode r1
        end
      else if b1 <? 0xF0 then
        match r1 with
        | [] => [replacement_char]
        | b2 :: r2 =>
            if second_ok3 b1 b2 then
              match r2 with
              | [] => [replacement_char]
              | b3 :: r3 =>
                  if is_cont b3
                  then ((b1 - 0xE0) * 4096 + (b2 - 0x80) * 64 + (b3 - 0x80))
                         :: utf8_decode r3
                  else replacement_char :: utf8_decode r2
              end
            else replacement_char :: utf8_decode r1
        end
      else if b1 <? 0xF5 then
        match r1 with
        | [] => [replacement_char]
        | b2 :: r2 =>
            if second_ok4 b1 b2 then
              match r2 with
              | [] => [replacement_char]
              | b3 :: r3 =>
                  if is_cont b3 then
                    match r3 with
                    | [] => [replacement_char]
                    | b4 :: r4 =>
                        if is_cont b4
                        then ((b1 - 0xF0) * 262144 + (b2 - 0x80) * 4096
                              + (b3 - 0x80) * 64 + (b4 - 0x80))
                               :: utf8_decode r4
                        else replacement_char :: utf8_decode r3
                    end
                  else replacement_char :: utf8_decode r2
              end
            else replacement_char :: utf8_decode r1
        end
      else replacement_char :: utf8_decode r1
  end.

Definition is_ascii (c : N) : bool := c <? 0x80.

(** The string cut into maximal runs of ASCII and of other characters,
    each tagged with its kind. *)
Fixpoint ascii_runs (s : pystr) : list (bool * pystr) :=
  match s with
  | [] => []
  | c :: r =>
      match ascii_runs r with
      | (a, run) :: rest =>
          if Bool.eqb a (is_ascii c) then (a, c :: run) :: rest
          else (is_ascii c, [c]) :: (a, run) :: rest
      | [] => [(is_ascii c, [c])]
      end
  end.

Definition unquote_run (p : bool * pystr) : pystr :=
  if p.1 then utf8_decode (unquote_to_bytes p.2) else p.2.

Definition unquote (s : pystr) : pystr :=
  if existsb (N.eqb 37) s
  then concat (map unquote_run (ascii_runs s))
  else s.

Definition plus_to_space (c : N) : N := if c =? 43 then 32 else c.

Definition unquote_plus (s : pystr) : pystr := unquote (map plus_to_space s).

(** [unquote_plus] applied to an event value: only a [str] has the
    [replace] method it starts with. *)
Definition py_unquote_plus (v : json) : result pystr :=
  match v with
  | JStr s => Ok (unquote_plus s)
  | _ => Raise AttributeError
  end.

(** ** The store's encoding of object keys

    The object store writes the key into a notification
    percent/plus-encoded: [my photo.jpg] arrives as [my+photo.jpg] or as
    [my%20photo.jpg].  The encoder is the store's, not the program's;
    [store_encode] is the form-encoding of [urllib.parse.quote_plus],
    [url_encoding] relates a key to every way of writing it that mixes
    literal characters, [+] and [%XX] escapes. *)

(** A Unicode scalar value: a code point that is not a surrogate. *)
Definition is_scalar (c : N) : bool :=
  (c <? 0xD800) || ((0xDFFF <? c) && (c <? 0x110000)).

Definition utf8_encode (c : N) : list N :=
  if c <? 0x80 then [c]
  else if c <? 0x800 then [0xC0 + c / 64; 0x80 + c mod 64]
  else if c <? 0x10000 then
    [0xE0 + c / 4096; 0x80 + (c / 64) mod 64; 0x80 + c mod 64]
  else
    [0xF0 + c / 262144; 0x80 + (c / 4096) mod 64;
     0x80 + (c / 64) mod 64; 0x80 + c mod 64].

(** Letters, digits and [_ . - ~] *)
Definition always_safe (c : N) : bool :=
  ((48 <=? c) && (c <=? 57)) || ((65 <=? c) && (c <=? 90))
  || ((97 <=? c) && (c <=? 122))
  || (c =? 95) || (c =? 46) || (c =? 45) || (c =? 126).

Definition hexdigit_upper (n : N) : N := if n <? 10 then 48 + n else 55 + n.

Definition pct_byte (b : N) : pystr :=
  [37; hexdigit_upper (b / 16); hexdigit_upper (b mod 16)].

Definition encode_char (c : N) : pystr :=
  if c =? 32 then [43]
  else if always_safe c then [c]
  else flat_map pct_byte (utf8_encode c).

(** The canonical encoding: a space as [+], safe characters as they are,
    every other character as the [%XX] escapes of its UTF-8 bytes. *)
Definition store_encode (k : pystr) : pystr := flat_map encode_char k.

(** A character that may stand for itself in an encoding: ASCII, and
    neither [%] nor [+]. *)
Definition is_literal (c : N) : bool :=
  (c <? 0x80) && negb (c =? 37) && negb (c =? 43).

(** [pct_escape bs e]: [e] writes the bytes [bs] as [%XX] escapes, in
    either letter case. *)
Inductive pct_escape : list N -> pystr -> Prop :=
  | pct_nil : pct_escape [] []
  | pct_cons b bs x y e :
      hexval x = Some (b / 16) ->
      hexval y = Some (b mod 16) ->
      pct_escape bs e ->
      pct_escape (b :: bs) (37 :: x :: y :: e).

(** [url_encoding k e]: [e] is some percent/plus-encoding of [k].  Each
    character is written as itself (when it is ASCII and neither [%] nor
    [+]), as [+] (a space), or as the escapes of its UTF-8 bytes. *)
Inductive url_encoding : pystr -> pystr -> Prop :=
  | enc_nil : url_encoding [] []
  | enc_literal c k e :
      c < 0x80 -> c <> 37 -> c <> 43 ->
      url_encoding k e ->
      url_encoding (c :: k) (c :: e)
  | enc_plus k e :
      url_encoding k e ->
      url_encoding (32 :: k) (43 :: e)
  | enc_percent c k pe e :
      pct_escape (utf8_encode c) pe ->
      url_encoding k e ->
      url_encoding (c :: k) (pe ++ e).

(** ** [json.dumps] *)

Definition hexdigit_lower (n : N) : N := if n <? 10 then 48 + n else 87 + n.

(** The escape [\uXXXX] of a 16-bit unit. *)
Definition u_escape (n : N) : pystr :=
  [92; 117; hexdigit_lower (n / 4096); hexdigit_lower ((n / 256) mod 16);
   hexdigit_lower ((n / 16) mod 16); hexdigit_lower (n mod 16)].

(** One character of a string, as [ensure_ascii=True] writes it. *)
Definition json_escape_char (c : N) : pystr :=
  if c =? 34 then [92; 34]
  else if c =? 92 then [92; 92]
  else if c =? 10 then lit "\n"
  else if c =? 13 then lit "\r"
  else if c =? 9 then lit "\t"
  else if c =? 8 then lit "\b"
  else if c =? 12 then lit "\f"
  else if (32 <=? c) && (c <=? 126) then [c]
  else if c <? 0x10000 then u_escape c
  else u_escape (0xD800 + (c - 0x10000) / 1024)
       ++ u_escape (0xDC00 + (c - 0x10000) mod 1024).

Definition json_string (s : pystr) : pystr :=
  [34] ++ flat_map json_escape_char s ++ [34].

(** [str(n)] for an [int]. *)
Definition int_str (n : Z) : pystr :=
  lit (DecimalString.NilZero.string_of_int (Z.to_int n)).

(** [", ".join(parts)] *)
Fixpoint join_comma (parts : list pystr) : pystr :=
  match parts with
  | [] => []
  | [p] => p
  | p :: r => p ++ lit ", " ++ join_comma r
  end.

(** Sequence a list of results, left to right. *)
Fixpoint sequence {A : Type} (l : list (result A)) : result (list A) :=
  match l with
  | [] => Ok []
  | Ok a :: r =>
      match sequence r with
      | Ok r' => Ok (a :: r')
      | Raise e => Raise e
      end
  | Raise e :: _ => Raise e
  end.

(** [json.dumps(v)] with the default options; a [Decimal] is not
    serialisable. *)
Fixpoint json_dumps (v : pyval) : result pystr :=
  match v with
  | PyNone => Ok (lit "null")
  | PyBool true => Ok (lit "true")
  | PyBool false => Ok (lit "false")
  | PyInt n => Ok (int_str n)
  | PyDecimal _ => Raise TypeError
  | PyStr s => Ok (json_string s)
  | PyList l =>
      match sequence (map json_dumps l) with
      | Ok parts => Ok (lit "[" ++ join_comma parts ++ lit "]")
      | Raise e => Raise e
      end
  | PyDict d =>
      match sequence (map (fun kv => match json_dumps kv.2 with
                                     | Ok s => Ok (json_string kv.1 ++ lit ": " ++ s)
                                     | Raise e => Raise e
                                     end) d) with
      | Ok parts => Ok (lit "{" ++ join_comma parts ++ lit "}")
      | Raise e => Raise e
      end
  end.

(** An ASCII literal between double quotes. *)
Definition quoted (s : string) : pystr := [34] ++ lit s ++ [34].

(** ** [datetime.isoformat] *)

(** A [datetime]; [utcoffset] is [None] for a naive value, otherwise the
    offset of its [tzinfo] in whole seconds. *)
Record datetime : Type := mkDatetime {
  year : N; month : N; day : N;
  hour : N; minute : N; second : N; microsecond : N;
  utcoffset : option Z
}.

(** [n] in decimal, zero-padded on the left to [width] digits. *)
Definition zero_pad (width : nat) (n : N) : pystr :=
  let digits := int_str (Z.of_N n) in
  repeat 48 (width - length digits) ++ digits.

Definition isoformat_offset (off : Z) : pystr :=
  let a := Z.to_N (Z.abs off) in
  [if (off <? 0)%Z then 45 else 43]
  ++ zero_pad 2 (a / 3600) ++ lit ":" ++ zero_pad 2 ((a / 60) mod 60)
  ++ (if a mod 60 =? 0 then [] else lit ":" ++ zero_pad 2 (a mod 60)).

(** [dt.isoformat()]: [YYYY-MM-DDTHH:MM:SS], then the microseconds when
    they are not zero, then the UTC offset of an aware value. *)
Definition isoformat (dt : datetime) : pystr :=
  zero_pad 4 (year dt) ++ lit "-" ++ zero_pad 2 (month dt) ++ lit "-"
  ++ zero_pad 2 (day dt) ++ lit "T"
  ++ zero_pad 2 (hour dt) ++ lit ":" ++ zero_pad 2 (minute dt) ++ lit ":"
  ++ zero_pad 2 (second dt)
  ++ (if microsecond dt =? 0 then [] else lit "." ++ zero_pad 6 (microsecond dt))
  ++ match utcoffset dt with
     | None => []
     | Some off => isoformat_offset off
     end.

(** ** [int(...)] and the DynamoDB type conversions *)

(** What depends on the Python runtime itself: [int] applied to a [str]
    follows the Unicode database of the interpreter (digits and blanks
    outside ASCII) and its limit on the number of digits.  [None] stands
    for [ValueError]. *)
Class PyRuntime : Type := { int_of_str : pystr -> option Z }.

(** [int(d)] for a [Decimal]: truncation towards zero. *)
Definition decimal_to_int (d : PyDecimal_t) : Z :=
  if (0 <=? dec_exp d)%Z then (dec_coef d * 10 ^ dec_exp d)%Z
  else (dec_coef d ÷ 10 ^ (- dec_exp d))%Z.

Definition py_int `{PyRuntime} (v : pyval) : result Z :=
  match v with
  | PyInt n => Ok n
  | PyBool b => Ok (if b then 1 else 0)%Z
  | PyDecimal d => Ok (decimal_to_int d)
  | PyStr s =>
      match int_of_str s with
      | Some n => Ok n
      | None => Raise ValueError
      end
  | PyNone | PyList _ | PyDict _ => Raise TypeError
  end.

(** boto3's [TypeSerializer]: Python values to attribute values. *)
Fixpoint serialize (v : pyval) : attr :=
  match v with
  | PyNone => AttrNULL
  | PyBool b => AttrBOOL b
  | PyInt n => AttrN (mkDecimal n 0)
  | PyDecimal d => AttrN d
  | PyStr s => AttrS s
  | PyList l => AttrL (map serialize l)
  | PyDict d => AttrM (map (fun kv => (kv.1, serialize kv.2)) d)
  end.

(** boto3's [TypeDeserializer]: every number comes back as a [Decimal]. *)
Fixpoint deserialize (a : attr) : pyval :=
  match a with
  | AttrNULL => PyNone
  | AttrBOOL b => PyBool b
  | AttrN d => PyDecimal d
  | AttrS s => PyStr s
  | AttrL l => PyList (map deserialize l)
  | AttrM d => PyDict (map (fun kv => (kv.1, deserialize kv.2)) d)
  end.

Definition serialize_item (item : list (pystr * pyval)) : list (pystr * attr) :=
  map (fun kv => (kv.1, serialize kv.2)) item.

Definition deserialize_item (item : list (pystr * attr)) : list (pystr * pyval) :=
  map (fun kv => (kv.1, deserialize kv.2)) item.

(** ** The world: object store, table, standard output *)

(** The response of [head_object]; a field the store left out is absent
    from the dictionary. *)
Record HeadObjectOutput : Type := mkHead {
  ContentLength : option Z;
  ContentType : option pystr;
  LastModified : option datetime
}.

(** Requests sent to the two collaborators. *)
Inductive Call : Type :=
  | HeadObject (bucket key : pystr)
  | PutItem (item : list (pystr * pyval))
  | GetItem (image_name : json).

(** The lines the program prints, one constructor for each [print]. *)
Inductive LogLine : Type :=
  | LogEventReceived (event : json)
  | LogProcessed (object_key : pystr)
  | LogS3Error (e : exn)
  | LogApiError (e : exn).

(** The state an invocation runs in.  [s3_fault], [put_fault] and
    [get_fault] say which requests the services refuse (unreachable
    endpoint, throttling, validation) and with which exception;
    [calls] and [stdout] grow in chronological order. *)
Record World : Type := mkWorld {
  s3_objects : gmap (pystr * pystr) HeadObjectOutput;
  s3_fault : pystr -> pystr -> option exn;
  table_items : gmap pystr (list (pystr * attr));
  put_fault : list (pystr * attr) -> option exn;
  get_fault : pystr -> option exn;
  calls : list Call;
  stdout : list LogLine
}.

Definition add_call (c : Call) (w : World) : World :=
  mkWorld (s3_objects w) (s3_fault w) (table_items w) (put_fault w)
          (get_fault w) (calls w ++ [c]) (stdout w).

Definition add_log (l : LogLine) (w : World) : World :=
  mkWorld (s3_objects w) (s3_fault w) (table_items w) (put_fault w)
          (get_fault w) (calls w) (stdout w ++ [l]).

Definition set_table (t : gmap pystr (list (pystr * attr))) (w : World) : World :=
  mkWorld (s3_objects w) (s3_fault w) t (put_fault w)
          (get_fault w) (calls w) (stdout w).

(** ** State and exceptions *)

Definition M (A : Type) : Type := World -> result A * World.

Definition ret {A} (a : A) : M A := fun w => (Ok a, w).

Definition raise {A} (e : exn) : M A := fun w => (Raise e, w).

Definition bind {A B} (m : M A) (k : A -> M B) : M B :=
  fun w =>
    match m w with
    | (Ok a, w') => k a w'
    | (Raise e, w') => (Raise e, w')
    end.

(** A computation without effects. *)
Definition lift {A} (r : result A) : M A := fun w => (r, w).

(** [try: body  except Exception as e: handler(e)] *)
Definition try_except {A} (body : M A) (handler : exn -> M A) : M A :=
  fun w =>
    match body w with
    | (Ok a, w') => (Ok a, w')
    | (Raise e, w') => handler e w'
    end.

Definition print (l : LogLine) : M unit := fun w => (Ok tt, add_log l w).

Declare Scope py_scope.
Delimit Scope py_scope with py.
Notation "x <- m ;; k" := (bind m (fun x => k))
  (at level 100, m at next level, k at level 200, right associativity) : py_scope.
Notation "m ;; k" := (bind m (fun _ => k))
  (at level 100, k at level 200, right associativity) : py_scope.
Local Open Scope py_scope.

(** [d[k]] on the response of [head_object]. *)
Definition field {A} (o : option A) : result A :=
  match o with
  | Some a => Ok a
  | None => Raise KeyError
  end.

(** ** The collaborators *)

(** [s3_client.head_object(Bucket=bucket, Key=key)].  A bucket that is
    not a string is refused before any request is made. *)
Definition head_object (bucket : json) (key : pystr) : M HeadObjectOutput :=
  match bucket with
  | JStr b =>
      fun w =>
        let w' := add_call (HeadObject b key) w in
        match s3_fault w b key with
        | Some e => (Raise e, w')
        | None =>
            match s3_objects w !! (b, key) with
            | Some o => (Ok o, w')
            | None => (Raise (ClientError "404"), w')
            end
        end
  | _ => raise ParamValidationError
  end.

(** [table.put_item(Item=item)]: an unconditional write under the
    item's [imageName], the string key of the table. *)
Definition put_item (item : list (pystr * pyval)) : M unit :=
  fun w =>
    let stored := serialize_item item in
    let w' := add_call (PutItem item) w in
    match put_fault w stored with
    | Some e => (Raise e, w')
    | None =>
        match dict_get (lit "imageName") stored with
        | Some (AttrS k) => (Ok tt, set_table (<[k := stored]> (table_items w)) w')
        | _ => (Raise (ClientError "ValidationException"), w')
        end
    end.

(** A [float] somewhere in the value: the serializer refuses it. *)
Fixpoint has_float (v : json) : bool :=
  match v with
  | JFloat _ _ => true
  | JList l => existsb has_float l
  | JDict d => existsb (fun kv => has_float kv.2) d
  | _ => false
  end.

(** [table.get_item(Key={'imageName': image_name})]; the answer holds
    the item exactly when one is stored.  A value with a [float] in it
    is refused by the serializer before any request; any other value
    that is not a string is refused by the table, whose key is a
    string. *)
Definition get_item (image_name : json) : M (option (list (pystr * pyval))) :=
  if has_float image_name then raise TypeError
  else
    match image_name with
    | JStr k =>
        fun w =>
          let w' := add_call (GetItem image_name) w in
          match get_fault w k with
          | Some e => (Raise e, w')
          | None => (Ok (deserialize_item <$> table_items w !! k), w')
          end
    | _ =>
        fun w => (Raise (ClientError "ValidationException"),
                  add_call (GetItem image_name) w)
    end.

(** ** The handlers *)

(** The response envelope: [statusCode], and [body] and [headers] when
    the dictionary has them. *)
Record Response : Type := mkResponse {
  statusCode : Z;
  body : option pystr;
  headers : option (list (pystr * pystr))
}.

(** [r[k]] and [r[0]] further down a chain of subscripts. *)
Definition at_key (r : result json) (k : pystr) : result json :=
  match r with
  | Ok v => subscript v k
  | Raise e => Raise e
  end.

Definition at_0 (r : result json) : result json :=
  match r with
  | Ok v => subscript0 v
  | Raise e => Raise e
  end.

(** [event['Records'][0]['s3']['bucket']['name']] *)
Definition notification_bucket (event : json) : result json :=
  at_key (at_key (at_key (at_0 (subscript event (lit "Records")))
                         (lit "s3")) (lit "bucket")) (lit "name").

(** [event['Records'][0]['s3']['object']['key']] *)
Definition notification_key (event : json) : result json :=
  at_key (at_key (at_key (at_0 (subscript event (lit "Records")))
                         (lit "s3")) (lit "object")) (lit "key").

(** The item written for an object. *)
Definition image_item (object_key : pystr) (size : Z) (content_type : pystr)
    (last_modified : datetime) : list (pystr * pyval) :=
  [(lit "imageName", PyStr object_key);
   (lit "size", PyInt size);
   (lit "contentType", PyStr content_type);
   (lit "lastModified", PyStr (isoformat last_modified))].

(** The [try] block of [handle_s3_event]. *)
Definition s3_try_block (event : json) : M Response :=
  bucket_name <- lift (notification_bucket event) ;;
  object_key <- lift (match notification_key event with
                      | Ok v => py_unquote_plus v
                      | Raise e => Raise e
                      end) ;;
  response <- head_object bucket_name object_key ;;
  size <- lift (field (ContentLength response)) ;;
  content_type <- lift (field (ContentType response)) ;;
  last_modified <- lift (field (LastModified response)) ;;
  put_item (image_item object_key size content_type last_modified) ;;
  print (LogProcessed object_key) ;;
  ret (mkResponse 200 None None).

(** [handle_s3_event]: the [except] clause prints and raises again. *)
Definition handle_s3_event (event : json) : M Response :=
  try_except (s3_try_block event)
             (fun e => print (LogS3Error e) ;; raise e).

(** [event['pathParameters']['imageName']] *)
Definition path_image_name (event : json) : result json :=
  at_key (subscript event (lit "pathParameters")) (lit "imageName").

Section Handlers.
Context `{!PyRuntime}.

(** [item['size'] = int(item['size'])] *)
Definition normalize_size (item : list (pystr * pyval))
    : result (list (pystr * pyval)) :=
  match dict_get (lit "size") item with
  | None => Raise KeyError
  | Some v =>
      match py_int v with
      | Ok n => Ok (dict_set (lit "size") (PyInt n) item)
      | Raise e => Raise e
      end
  end.

(** The [try] block of [handle_api_gateway_event]. *)
Definition api_try_block (event : json) : M Response :=
  image_name <- lift (path_image_name event) ;;
  response <- get_item image_name ;;
  match response with
  | Some item =>
      item' <- lift (normalize_size item) ;;
      b <- lift (json_dumps (PyDict item')) ;;
      ret (mkResponse 200 (Some b)
             (Some [(lit "Content-Type", lit "application/json")]))
  | None =>
      b <- lift (json_dumps (PyDict [(lit "error", PyStr (lit "Image not found"))])) ;;
      ret (mkResponse 404 (Some b) None)
  end.

(** [handle_api_gateway_event]: the [except] clause prints and answers
    with status 500. *)
Definition handle_api_gateway_event (event : json) : M Response :=
  try_except (api_try_block event)
    (fun e =>
       print (LogApiError e) ;;
       b <- lift (json_dumps (PyDict [(lit "error", PyStr (lit "Internal server error"))])) ;;
       ret (mkResponse 500 (Some b) None)).

(** [lambda_handler]: log the event, then route on the presence of
    ['Records'] and, failing that, of ['httpMethod']. *)
Definition lambda_handler {Ctx : Type} (event : json) (context : Ctx) : M Response :=
  print (LogEventReceived event) ;;
  is_s3 <- lift (py_in (lit "Records") event) ;;
  if is_s3 then handle_s3_event event
  else
    is_api <- lift (py_in (lit "httpMethod") event) ;;
    if is_api then handle_api_gateway_event event
    else
      b <- lift (json_dumps (PyStr (lit "Unknown event source"))) ;;
      ret (mkResponse 400 (Some b) None).
End Handlers.

(** ** A concrete runtime and the scenario of the specification *)

(** [int] on ASCII digits without sign, blanks or underscores; enough
    to run the examples. *)
Fixpoint digits_value (acc : Z) (s : pystr) : option Z :=
  match s with
  | [] => Some acc
  | c :: r =>
      if (48 <=? c) && (c <=? 57)
      then digits_value (10 * acc + Z.of_N (c - 48)) r
      else None
  end.

Definition plain_runtime : PyRuntime :=
  {| int_of_str s := match s with [] => None | _ => digits_value 0 s end |}.

Definition empty_world : World :=
  mkWorld ∅ (fun _ _ => None) ∅ (fun _ => None) (fun _ => None) [] [].

(** A notification for one object. *)
Definition s3_notification (bucket key : pystr) : json :=
  JDict [(lit "Records",
          JList [JDict [(lit "s3",
                         JDict [(lit "bucket", JDict [(lit "name", JStr bucket)]);
                                (lit "object", JDict [(lit "key", JStr key)])])]])].

(** A lookup request for one name. *)
Definition lookup_request (image_name : pystr) : json :=
  JDict [(lit "httpMethod", JStr (lit "GET"));
         (lit "pathParameters", JDict [(lit "imageName", JStr image_name)])].

Definition scenario_world : World :=
  mkWorld {[ (lit "imgs", lit "a b.png") :=
               mkHead (Some 1024%Z) (Some (lit "image/png"))
                      (Some (mkDatetime 2024 1 1 0 0 0 0 None)) ]}
          (fun _ _ => None) ∅ (fun _ => None) (fun _ => None) [] [].

(** An upload: the store holds [o] under [(B, k)] from now on. *)
Definition put_object (B k : pystr) (o : HeadObjectOutput) (w : World) : World :=
  mkWorld (<[(B, k) := o]> (s3_objects w)) (s3_fault w) (table_items w)
          (put_fault w) (get_fault w) (calls w) (stdout w).

(** The scenario: the world after the notification for [a%20b.png]. *)
Definition scenario_ingested : World :=
  (handle_s3_event (s3_notification (lit "imgs") (lit "a%20b.png")) scenario_world).2.

(** The object is uploaded again with other metadata, and notified
    again, this time with the space written as a plus sign. *)
Definition scenario_reuploaded : World :=
  put_object (lit "imgs") (lit "a b.png")
    (mkHead (Some 2048%Z) (Some (lit "image/jpeg"))
            (Some (mkDatetime 2024 2 2 12 30 0 0 (Some 0%Z))))
    scenario_ingested.

Definition scenario_ingested_again : World :=
  (handle_s3_event (s3_notification (lit "imgs") (lit "a+b.png")) scenario_reuploaded).2.

(** A world whose object store cannot be reached. *)
Definition unreachable_store : World :=
  mkWorld ∅ (fun _ _ => Some EndpointConnectionError) ∅
          (fun _ => None) (fun _ => None) [] [].

(** ** Vocabulary of the properties *)

(** The world once [lambda_handler] has printed the event. *)
Definition logged (event : json) (w : World) : World :=
  add_log (LogEventReceived event) w.

Definition json_headers : list (pystr * pystr) :=
  [(lit "Content-Type", lit "application/json")].

(** The JSON text of a record: [size] is a bare integer. *)
Definition image_body (k : pystr) (L : Z) (C : pystr) (T : datetime) : pystr :=
  lit "{" ++ quoted "imageName" ++ lit ": " ++ json_string k
  ++ lit ", " ++ quoted "size" ++ lit ": " ++ int_str L
  ++ lit ", " ++ quoted "contentType" ++ lit ": " ++ json_string C
  ++ lit ", " ++ quoted "lastModified" ++ lit ": " ++ json_string (isoformat T)
  ++ lit "}".

Definition found_response (k : pystr) (L : Z) (C : pystr) (T : datetime) : Response :=
  mkResponse 200 (Some (image_body k L C T)) (Some json_headers).

Definition error_body (message : string) : pystr :=
  lit "{" ++ quoted "error" ++ lit ": " ++ quoted message ++ lit "}".

Definition not_found_response : Response :=
  mkResponse 404 (Some (error_body "Image not found")) None.

Definition internal_error_response : Response :=
  mkResponse 500 (Some (error_body "Internal server error")) None.

Definition unknown_source_response : Response :=
  mkResponse 400 (Some (quoted "Unknown event source")) None.

Definition ingested_response : Response := mkResponse 200 None None.

(** The calls an invocation added to the trace. *)
Definition new_calls (w w' : World) (cs : list Call) : Prop :=
  calls w' = calls w ++ cs.

Definition is_get_item (c : Call) : bool :=
  match c with
  | GetItem _ => true
  | _ => false
  end.

Section Dispatch.
Context `{!PyRuntime}.

(** [lambda_handler] hands the event to [handler]: whatever the world
    and the context, the invocation is the handler's run on the event,
    started right after the event was printed. *)
Definition dispatches_to (handler : json -> M Response) (event : json) : Prop :=
  forall (Ctx : Type) (context : Ctx) (w : World),
    lambda_handler event context w = handler event (logged event w).

(** [lambda_handler] runs neither handler and answers by itself. *)
Definition not_dispatched (event : json) : Prop :=
  forall (Ctx : Type) (context : Ctx) (w : World),
    lambda_handler event context w = (Ok unknown_source_response, logged event w).
End Dispatch.

(** The ways the three steps of an ingestion of object [(B, k)] fail in
    world [w], with the exception each raises: the fetch is refused or
    finds no object, the response lacks a field of the record, the write
    is refused. *)
Inductive ingestion_failure (w : World) (B k : pystr) : exn -> Prop :=
  | fetch_refused e :
      s3_fault w B k = Some e ->
      ingestion_failure w B k e
  | object_missing :
      s3_fault w B k = None ->
      s3_objects w !! (B, k) = None ->
      ingestion_failure w B k (ClientError "404")
  | record_incomplete o :
      s3_fault w B k = None ->
      s3_objects w !! (B, k) = Some o ->
      ContentLength o = None \/ ContentType o = None \/ LastModified o = None ->
      ingestion_failure w B k KeyError
  | write_refused L C T e :
      s3_fault w B k = None ->
      s3_objects w !! (B, k) = Some (mkHead (Some L) (Some C) (Some T)) ->
      put_fault w (serialize_item (image_item k L C T)) = Some e ->
      ingestion_failure w B k e.

(** The routing criterion in the words of the specification: an
    ingestion event has a list-valued records field holding one or more
    notifications. *)
Definition spec_ingestion_event (d : list (pystr * json)) : bool :=
  match dict_get (lit "Records") d with
  | Some (JList (_ :: _)) => true
  | _ => false
  end.

(** In the same words, an envelope with a records list. *)
Definition spec_records_list (d : list (pystr * json)) : bool :=
  match dict_get (lit "Records") d with
  | Some (JList _) => true
  | _ => false
  end.

(** A round trip through the store's encoding and the handler's decoding. *)
Definition key_round_trip (k : pystr) : pystr := unquote_plus (store_encode k).

(** A printable ASCII character. *)
Definition is_printable (c : N) : bool := (32 <=? c) && (c <=? 126).

(** Every string of the value, keys included, holds code points only. *)
Fixpoint valid_text (v : pyval) : bool :=
  match v with
  | PyStr s => forallb (fun c => c <? 0x110000) s
  | PyList l => forallb valid_text l
  | PyDict d => forallb (fun kv => forallb (fun c => c <? 0x110000) kv.1
                                   && valid_text kv.2) d
  | _ => true
  end.

(** * Properties *)

(** ** The library models on the samples of their documentation *)

Example unquote_plus_plus :
  unquote_plus (lit "my+photo.jpg") = lit "my photo.jpg".
Proof. reflexivity. Qed.

Example unquote_plus_percent :
  unquote_plus (lit "my%20photo.jpg") = lit "my photo.jpg".
Proof. reflexivity. Qed.

Example unquote_plus_samples :
  unquote_plus (lit "%4") = lit "%4" /\
  unquote_plus (lit "%%20") = lit "% " /\
  unquote_plus (lit "%zz%41%e9") = lit "%zzA" ++ [0xFFFD] /\
  unquote_plus (lit "%E0%80x") = [0xFFFD; 0xFFFD; 120] /\
  unquote_plus (lit "%F0%90%80a") = [0xFFFD; 97] /\
  unquote_plus (lit "%ED%A0%80") = [0xFFFD; 0xFFFD; 0xFFFD] /\
  unquote_plus (lit "%C3" ++ [0xE9] ++ lit "%A9") = [0xFFFD; 0xE9; 0xFFFD] /\
  unquote_plus (lit "%F4%90%80%80") = [0xFFFD; 0xFFFD; 0xFFFD; 0xFFFD] /\
  unquote_plus (lit "%E2%82%AC") = [0x20AC] /\
  unquote_plus (lit "%F0%9F%98%80") = [0x1F600].
Proof. repeat split; reflexivity. Qed.

Example json_dumps_error :
  json_dumps (PyDict [(lit "error", PyStr (lit "Image not found"))])
  = Ok (lit "{" ++ quoted "error" ++ lit ": " ++ quoted "Image not found" ++ lit "}").
Proof. reflexivity. Qed.

Example json_dumps_nested :
  json_dumps (PyDict [(lit "a", PyList [PyInt 1; PyInt (-2); PyNone; PyBool true;
                                        PyDict [(lit "b", PyStr (lit "c"))]]);
                      (lit "e", PyList []); (lit "f", PyDict [])])
  = Ok (lit "{" ++ quoted "a" ++ lit ": [1, -2, null, true, {" ++ quoted "b"
        ++ lit ": " ++ quoted "c" ++ lit "}], " ++ quoted "e" ++ lit ": [], "
        ++ quoted "f" ++ lit ": {}}").
Proof. reflexivity. Qed.

Example json_dumps_escapes :
  json_dumps (PyStr [97; 34; 92; 10; 0; 0x7F; 0xE9; 0x20AC; 0x1F600; 47; 126])
  = Ok ([34] ++ lit "a" ++ [92; 34]
        ++ lit "\\\n\u0000\u007f\u00e9\u20ac\ud83d\ude00/~" ++ [34]).
Proof. vm_compute. reflexivity. Qed.

Example isoformat_naive :
  isoformat (mkDatetime 2024 1 1 0 0 0 0 None) = lit "2024-01-01T00:00:00".
Proof. reflexivity. Qed.

Example isoformat_utc :
  isoformat (mkDatetime 2024 1 1 0 0 0 0 (Some 0%Z))
  = lit "2024-01-01T00:00:00+00:00".
Proof. reflexivity. Qed.

Example isoformat_offsets :
  isoformat (mkDatetime 5 1 1 0 0 0 7 (Some (-19800)%Z))
  = lit "0005-01-01T00:00:00.000007-05:30" /\
  isoformat (mkDatetime 2024 1 1 0 0 0 0 (Some 3661%Z))
  = lit "2024-01-01T00:00:00+01:01:01".
Proof. split; reflexivity. Qed.

(** ** The scenario of the specification *)

Example scenario_ingestion :
  @lambda_handler plain_runtime unit
    (s3_notification (lit "imgs") (lit "a%20b.png")) tt scenario_world
  = (Ok ingested_response,
     add_log (LogProcessed (lit "a b.png"))
       (set_table {[ lit "a b.png" :=
                       [(lit "imageName", AttrS (lit "a b.png"));
                        (lit "size", AttrN (mkDecimal 1024 0));
                        (lit "contentType", AttrS (lit "image/png"));
                        (lit "lastModified", AttrS (lit "2024-01-01T00:00:00"))] ]}
          (add_call (PutItem (image_item (lit "a b.png") 1024 (lit "image/png")
                                (mkDatetime 2024 1 1 0 0 0 0 None)))
             (add_call (HeadObject (lit "imgs") (lit "a b.png"))
                (logged (s3_notification (lit "imgs") (lit "a%20b.png"))
                        scenario_world))))).
Proof. vm_compute. reflexivity. Qed.

Example scenario_lookup :
  (@lambda_handler plain_runtime unit (lookup_request (lit "a b.png")) tt
     scenario_ingested).1
  = Ok (mkResponse 200
          (Some (lit "{" ++ quoted "imageName" ++ lit ": " ++ quoted "a b.png"
                 ++ lit ", " ++ quoted "size" ++ lit ": 1024, "
                 ++ quoted "contentType" ++ lit ": " ++ quoted "image/png"
                 ++ lit ", " ++ quoted "lastModified" ++ lit ": "
                 ++ quoted "2024-01-01T00:00:00" ++ lit "}"))
          (Some [(lit "Content-Type", lit "application/json")])).
Proof. vm_compute. reflexivity. Qed.

(** ** Percent-decoding and UTF-8 *)

Ltac Zify.zify_post_hook ::= Z.to_euclidean_division_equations.

(** Decide every comparison of the goal, discarding impossible branches. *)
Ltac bool_tests :=
  repeat match goal with
  | |- context [?a <? ?b] => destruct (N.ltb_spec a b); try lia
  | |- context [?a <=? ?b] => destruct (N.leb_spec a b); try lia
  | |- context [?a =? ?b] => destruct (N.eqb_spec a b); try lia
  end.

Lemma is_scalar_spec c :
  is_scalar c = true <-> c < 0xD800 \/ (0xDFFF < c /\ c < 0x110000).
Proof.
  unfold is_scalar.
  rewrite orb_true_iff, andb_true_iff, !N.ltb_lt. tauto.
Qed.

Lemma utf8_decode_ascii b rest :
  b < 0x80 -> utf8_decode (b :: rest) = b :: utf8_decode rest.
Proof. intros Hb. cbn [utf8_decode]. bool_tests. reflexivity. Qed.

Lemma utf8_decode_2 b1 b2 rest :
  0xC2 <= b1 < 0xE0 -> 0x80 <= b2 <= 0xBF ->
  utf8_decode (b1 :: b2 :: rest)
  = ((b1 - 0xC0) * 64 + (b2 - 0x80)) :: utf8_decode rest.
Proof.
  intros H1 H2. cbn [utf8_decode]. unfold is_cont.
  bool_tests. reflexivity.
Qed.

Lemma utf8_decode_3 b1 b2 b3 rest :
  0xE0 <= b1 < 0xF0 -> 0x80 <= b2 <= 0xBF -> 0x80 <= b3 <= 0xBF ->
  (b1 = 0xE0 -> 0xA0 <= b2) -> (b1 = 0xED -> b2 < 0xA0) ->
  utf8_decode (b1 :: b2 :: b3 :: rest)
  = ((b1 - 0xE0) * 4096 + (b2 - 0x80) * 64 + (b3 - 0x80)) :: utf8_decode rest.
Proof.
  intros H1 H2 H3 Hlow Hsur. cbn [utf8_decode]. unfold second_ok3, is_cont.
  bool_tests; reflexivity.
Qed.

Lemma utf8_decode_4 b1 b2 b3 b4 rest :
  0xF0 <= b1 < 0xF5 -> 0x80 <= b2 <= 0xBF -> 0x80 <= b3 <= 0xBF ->
  0x80 <= b4 <= 0xBF ->
  (b1 = 0xF0 -> 0x90 <= b2) -> (b1 = 0xF4 -> b2 < 0x90) ->
  utf8_decode (b1 :: b2 :: b3 :: b4 :: rest)
  = ((b1 - 0xF0) * 262144 + (b2 - 0x80) * 4096 + (b3 - 0x80) * 64 + (b4 - 0x80))
      :: utf8_decode rest.
Proof.
  intros H1 H2 H3 H4 Hlow Hhigh. cbn [utf8_decode]. unfold second_ok4, is_cont.
  bool_tests; reflexivity.
Qed.

(** Decoding undoes encoding, one scalar value at a time. *)
Lemma utf8_decode_encode c rest :
  is_scalar c = true ->
  utf8_decode (utf8_encode c ++ rest) = c :: utf8_decode rest.
Proof.
  rewrite is_scalar_spec. intros Hc. unfold utf8_encode.
  destruct (N.ltb_spec c 0x80).
  { by apply utf8_decode_ascii. }
  destruct (N.ltb_spec c 0x800).
  { cbn [app]. rewrite utf8_decode_2 by lia. f_equal. lia. }
  destruct (N.ltb_spec c 0x10000).
  { cbn [app]. rewrite utf8_decode_3 by lia. f_equal. lia. }
  cbn [app]. rewrite utf8_decode_4 by lia. f_equal. lia.
Qed.

Lemma utf8_encode_bytes c :
  c < 0x110000 -> Forall (fun b => b < 256) (utf8_encode c).
Proof.
  intros Hc. unfold utf8_encode.
  destruct (N.ltb_spec c 0x80); [|destruct (N.ltb_spec c 0x800);
    [|destruct (N.ltb_spec c 0x10000)]];
    repeat constructor; lia.
Qed.

Lemma hexval_some x n : hexval x = Some n -> x < 0x80 /\ x <> 37 /\ x <> 43.
Proof.
  unfold hexval. bool_tests; cbn [andb]; intros; try discriminate; lia.
Qed.

Lemma hexval_hexdigit_upper n : n < 16 -> hexval (hexdigit_upper n) = Some n.
Proof.
  intros Hn. unfold hexval, hexdigit_upper.
  bool_tests; cbn [andb]; f_equal; lia.
Qed.

Lemma pct_escape_flat_map bs :
  Forall (fun b => b < 256) bs -> pct_escape bs (flat_map pct_byte bs).
Proof.
  induction 1 as [|b bs Hb _ IH]; cbn [flat_map pct_byte app].
  - constructor.
  - constructor; [apply hexval_hexdigit_upper; lia .. | exact IH].
Qed.

Lemma pct_escape_ascii bs e :
  pct_escape bs e -> Forall (fun c => c < 0x80) e.
Proof.
  induction 1 as [|b bs x y e Hx Hy _ IH]; [constructor|].
  apply hexval_some in Hx, Hy.
  repeat (constructor; [lia || tauto|]). exact IH.
Qed.

Lemma pct_escape_plus_to_space bs e :
  pct_escape bs e -> map plus_to_space e = e.
Proof.
  induction 1 as [|b bs x y e Hx Hy _ IH]; [reflexivity|].
  apply hexval_some in Hx, Hy. cbn [map]. rewrite IH.
  unfold plus_to_space. bool_tests. reflexivity.
Qed.

Lemma unquote_to_bytes_pct bs e rest :
  pct_escape bs e -> unquote_to_bytes (e ++ rest) = bs ++ unquote_to_bytes rest.
Proof.
  induction 1 as [|b bs x y e Hx Hy _ IH]; [reflexivity|].
  cbn [app unquote_to_bytes]. rewrite N.eqb_refl, Hx, Hy, IH.
  f_equal. lia.
Qed.

Lemma unquote_to_bytes_literal c rest :
  c <> 37 -> unquote_to_bytes (c :: rest) = c :: unquote_to_bytes rest.
Proof. intros Hc. cbn [unquote_to_bytes]. bool_tests. reflexivity. Qed.

(** An encoding is made of ASCII characters only. *)
Lemma url_encoding_ascii k e :
  url_encoding k e -> Forall (fun c => c < 0x80) e.
Proof.
  induction 1 as [|c k e Hc _ _ _ IH|k e _ IH|c k pe e Hpe _ IH].
  - constructor.
  - by constructor.
  - constructor; [lia | exact IH].
  - apply Forall_app. split; [by eapply pct_escape_ascii | exact IH].
Qed.

(** Percent-decoding an encoding and reading the bytes as UTF-8 gives
    the key back. *)
Lemma decode_url_encoding k e :
  url_encoding k e ->
  Forall (fun c => is_scalar c = true) k ->
  utf8_decode (unquote_to_bytes (map plus_to_space e)) = k.
Proof.
  induction 1 as [|c k e Hc H37 H43 _ IH|k e _ IH|c k pe e Hpe _ IH];
    intros Hk.
  - reflexivity.
  - apply Forall_cons in Hk as [_ Hk]. cbn [map].
    replace (plus_to_space c) with c by (unfold plus_to_space; bool_tests; done).
    rewrite unquote_to_bytes_literal, utf8_decode_ascii, IH by done. done.
  - apply Forall_cons in Hk as [_ Hk]. cbn [map].
    change (plus_to_space 43) with 32.
    rewrite unquote_to_bytes_literal, utf8_decode_ascii, IH by (done || lia). done.
  - apply Forall_cons in Hk as [Hc Hk].
    rewrite map_app, (pct_escape_plus_to_space _ _ Hpe).
    rewrite (unquote_to_bytes_pct _ _ _ Hpe), utf8_decode_encode, IH by done. done.
Qed.

Lemma ascii_runs_ascii c s :
  Forall (fun c => c < 0x80) (c :: s) -> ascii_runs (c :: s) = [(true, c :: s)].
Proof.
  revert c. induction s as [|c' s IH]; intros c Hs.
  - apply Forall_cons in Hs as [Hc _]. cbn [ascii_runs]. unfold is_ascii.
    bool_tests. reflexivity.
  - apply Forall_cons in Hs as [Hc Hs].
    change (ascii_runs (c :: c' :: s)) with
      (match ascii_runs (c' :: s) with
       | (a, run) :: rest =>
           if Bool.eqb a (is_ascii c) then (a, c :: run) :: rest
           else (is_ascii c, [c]) :: (a, run) :: rest
       | [] => [(is_ascii c, [c])]
       end).
    rewrite (IH c' Hs). unfold is_ascii. bool_tests. reflexivity.
Qed.

Lemma utf8_decode_plain s :
  Forall (fun c => c < 0x80) s -> existsb (N.eqb 37) s = false ->
  utf8_decode (unquote_to_bytes s) = s.
Proof.
  induction 1 as [|c s Hc _ IH]; [reflexivity|].
  cbn [existsb]. rewrite orb_false_iff, N.eqb_neq. intros [H37 Hs].
  rewrite unquote_to_bytes_literal, utf8_decode_ascii, IH by done. done.
Qed.

(** On an ASCII string [unquote] is percent-decoding followed by UTF-8
    decoding of the whole. *)
Lemma unquote_ascii s :
  Forall (fun c => c < 0x80) s ->
  unquote s = utf8_decode (unquote_to_bytes s).
Proof.
  intros Hs. unfold unquote.
  destruct (existsb (N.eqb 37) s) eqn:Hpct.
  - destruct s as [|c s]; [discriminate|].
    rewrite (ascii_runs_ascii _ _ Hs). cbn [map concat unquote_run fst snd].
    by rewrite app_nil_r.
  - by rewrite utf8_decode_plain.
Qed.

Lemma plus_to_space_ascii s :
  Forall (fun c => c < 0x80) s -> Forall (fun c => c < 0x80) (map plus_to_space s).
Proof.
  induction 1 as [|c s Hc _ IH]; cbn [map]; constructor; [|exact IH].
  unfold plus_to_space. bool_tests.
Qed.

(** [unquote_plus] inverts every percent/plus-encoding. *)
Lemma unquote_plus_url_encoding k e :
  Forall (fun c => is_scalar c = true) k ->
  url_encoding k e ->
  unquote_plus e = k.
Proof.
  intros Hk He. unfold unquote_plus.
  rewrite unquote_ascii.
  - by apply decode_url_encoding.
  - apply plus_to_space_ascii. by eapply url_encoding_ascii.
Qed.

Lemma always_safe_literal c :
  always_safe c = true -> c < 0x80 /\ c <> 37 /\ c <> 43.
Proof.
  unfold always_safe. bool_tests; cbn [andb orb]; intros; try discriminate; lia.
Qed.

(** The canonical encoding is one of the encodings. *)
Lemma store_encode_url_encoding k :
  Forall (fun c => is_scalar c = true) k ->
  url_encoding k (store_encode k).
Proof.
  induction 1 as [|c k Hc _ IH]; [constructor|].
  unfold store_encode. cbn [flat_map]. fold (store_encode k).
  unfold encode_char. destruct (N.eqb_spec c 32) as [->|H32].
  { by constructor. }
  destruct (always_safe c) eqn:Hsafe.
  { apply always_safe_literal in Hsafe as (? & ? & ?). by constructor. }
  constructor; [|exact IH].
  apply pct_escape_flat_map, utf8_encode_bytes.
  apply is_scalar_spec in Hc. lia.
Qed.

(** ** Running the handlers *)

Lemma stored_image_name k L C T :
  dict_get (lit "imageName") (serialize_item (image_item k L C T)) = Some (AttrS k).
Proof. reflexivity. Qed.

(** What comes back from the table for a record the ingestion wrote is
    the record itself once [size] is an [int] again. *)
Lemma normalize_stored_item `{!PyRuntime} k L C T :
  normalize_size (deserialize_item (serialize_item (image_item k L C T)))
  = Ok (image_item k L C T).
Proof.
  unfold normalize_size.
  change (dict_get (lit "size") (deserialize_item (serialize_item (image_item k L C T))))
    with (Some (PyDecimal (mkDecimal L 0))).
  cbn [py_int decimal_to_int dec_exp dec_coef Z.leb Z.compare Z.pow Z.pow_pos
       Pos.iter Z.mul].
  rewrite Z.mul_1_r. reflexivity.
Qed.

Lemma json_dumps_image_item k L C T :
  json_dumps (PyDict (image_item k L C T)) = Ok (image_body k L C T).
Proof.
  unfold image_body, image_item.
  cbn [json_dumps map sequence fst snd join_comma].
  change (json_string (lit "imageName")) with (quoted "imageName").
  change (json_string (lit "size")) with (quoted "size").
  change (json_string (lit "contentType")) with (quoted "contentType").
  change (json_string (lit "lastModified")) with (quoted "lastModified").
  by rewrite <- !app_assoc.
Qed.

(** The [try] block of the ingestion, step by step, on a notification
    that names bucket [B] and key [K]. *)
Lemma s3_try_block_run event w B K :
  notification_bucket event = Ok (JStr B) ->
  notification_key event = Ok (JStr K) ->
  s3_try_block event w =
    let k := unquote_plus K in
    let w1 := add_call (HeadObject B k) w in
    match s3_fault w B k with
    | Some e => (Raise e, w1)
    | None =>
        match s3_objects w !! (B, k) with
        | None => (Raise (ClientError "404"), w1)
        | Some o =>
            match ContentLength o, ContentType o, LastModified o with
            | Some L, Some C, Some T =>
                let item := image_item k L C T in
                let w2 := add_call (PutItem item) w1 in
                match put_fault w (serialize_item item) with
                | Some e => (Raise e, w2)
                | None =>
                    (Ok ingested_response,
                     add_log (LogProcessed k)
                       (set_table (<[k := serialize_item item]> (table_items w)) w2))
                end
            | _, _, _ => (Raise KeyError, w1)
            end
        end
    end.
Proof.
  intros HB HK. unfold s3_try_block, bind, lift. rewrite HB, HK.
  cbn [py_unquote_plus head_object].
  destruct (s3_fault w B (unquote_plus K)) as [e|]; [reflexivity|].
  destruct (s3_objects w !! (B, unquote_plus K)) as [[[L|] [C|] [T|]]|];
    try reflexivity.
  cbn [ContentLength ContentType LastModified field].
  unfold put_item. cbn [add_call put_fault].
  destruct (put_fault w _) as [e|]; [reflexivity|].
  rewrite stored_image_name. reflexivity.
Qed.

(** [handle_s3_event] returns what its [try] block returns and raises
    again what it raises, after one more line of output. *)
Lemma handle_s3_event_ok event w r w' :
  s3_try_block event w = (Ok r, w') -> handle_s3_event event w = (Ok r, w').
Proof. intros H. unfold handle_s3_event, try_except. by rewrite H. Qed.

Lemma handle_s3_event_reraises event w e w' :
  s3_try_block event w = (Raise e, w') ->
  handle_s3_event event w = (Raise e, add_log (LogS3Error e) w').
Proof. intros H. unfold handle_s3_event, try_except. by rewrite H. Qed.

Lemma handle_s3_event_ok_inv event w r w' :
  handle_s3_event event w = (Ok r, w') -> s3_try_block event w = (Ok r, w').
Proof.
  unfold handle_s3_event, try_except.
  destruct (s3_try_block event w) as [[r0|e] w0]; [done|].
  unfold bind, print, raise. discriminate.
Qed.

(** A successful ingestion leaves the table with the record of the
    object under the decoded key, whatever was there before. *)
Lemma successful_ingestion event w r w1 B K L C T :
  notification_bucket event = Ok (JStr B) ->
  notification_key event = Ok (JStr K) ->
  s3_objects w !! (B, unquote_plus K) = Some (mkHead (Some L) (Some C) (Some T)) ->
  handle_s3_event event w = (Ok r, w1) ->
  r = ingested_response /\
  table_items w1
  = <[unquote_plus K := serialize_item (image_item (unquote_plus K) L C T)]>
      (table_items w).
Proof.
  intros HB HK Hobj Hrun. apply handle_s3_event_ok_inv in Hrun.
  rewrite (s3_try_block_run _ _ _ _ HB HK) in Hrun. cbv zeta in Hrun.
  rewrite Hobj in Hrun. cbn [ContentLength ContentType LastModified] in Hrun.
  destruct (s3_fault w B (unquote_plus K)); [discriminate|].
  destruct (put_fault w _); [discriminate|].
  injection Hrun as <- <-. done.
Qed.

(** The [try] block of the lookup, step by step, on a request whose path
    parameter is the string [k]. *)
Lemma api_try_block_run `{!PyRuntime} event w k :
  path_image_name event = Ok (JStr k) ->
  api_try_block event w =
    let w1 := add_call (GetItem (JStr k)) w in
    match get_fault w k with
    | Some e => (Raise e, w1)
    | None =>
        match table_items w !! k with
        | None => (Ok not_found_response, w1)
        | Some stored =>
            match normalize_size (deserialize_item stored) with
            | Raise e => (Raise e, w1)
            | Ok item =>
                match json_dumps (PyDict item) with
                | Raise e => (Raise e, w1)
                | Ok b => (Ok (mkResponse 200 (Some b) (Some json_headers)), w1)
                end
            end
        end
    end.
Proof.
  intros Hk. unfold api_try_block, bind, lift. rewrite Hk.
  unfold get_item. cbn [has_float].
  destruct (get_fault w k) as [e|]; [reflexivity|].
  destruct (table_items w !! k) as [stored|]; [|reflexivity].
  cbn [fmap option_fmap option_map].
  destruct (normalize_size (deserialize_item stored)) as [item|e]; [|reflexivity].
  destruct (json_dumps (PyDict item)) as [b|e]; reflexivity.
Qed.

Lemma handle_api_gateway_event_ok `{!PyRuntime} event w r w' :
  api_try_block event w = (Ok r, w') ->
  handle_api_gateway_event event w = (Ok r, w').
Proof. intros Hrun. unfold handle_api_gateway_event, try_except. by rewrite Hrun. Qed.

Lemma handle_api_gateway_event_caught `{!PyRuntime} event w e w' :
  api_try_block event w = (Raise e, w') ->
  handle_api_gateway_event event w
  = (Ok internal_error_response, add_log (LogApiError e) w').
Proof. intros Hrun. unfold handle_api_gateway_event, try_except. by rewrite Hrun. Qed.

(** Looking up a key under which the table holds a record written by the
    ingestion. *)
Lemma lookup_stored_record `{!PyRuntime} event w k L C T :
  path_image_name event = Ok (JStr k) ->
  get_fault w k = None ->
  table_items w !! k = Some (serialize_item (image_item k L C T)) ->
  handle_api_gateway_event event w
  = (Ok (found_response k L C T), add_call (GetItem (JStr k)) w).
Proof.
  intros Hk Hget Hrec. apply handle_api_gateway_event_ok.
  rewrite (api_try_block_run _ _ _ Hk). cbv zeta.
  by rewrite Hget, Hrec, normalize_stored_item, json_dumps_image_item.
Qed.

(** ** Outcomes of the two handlers *)

(** The ingestion either raises or answers with the bare status 200. *)
Lemma handle_s3_event_outcome event w :
  (exists e w', handle_s3_event event w = (Raise e, w'))
  \/ (exists w', handle_s3_event event w = (Ok ingested_response, w')).
Proof.
  unfold handle_s3_event, try_except.
  destruct (s3_try_block event w) as [[r|e] w'] eqn:Hrun.
  - right. exists w'. f_equal. f_equal. revert Hrun.
    unfold s3_try_block, bind, lift, head_object, put_item, print, ret, raise.
    intros Hrun. repeat case_match; simplify_eq; reflexivity.
  - left. by eexists _, _.
Qed.

Lemma json_dumps_not_found :
  json_dumps (PyDict [(lit "error", PyStr (lit "Image not found"))])
  = Ok (error_body "Image not found").
Proof. reflexivity. Qed.

Lemma json_dumps_internal_error :
  json_dumps (PyDict [(lit "error", PyStr (lit "Internal server error"))])
  = Ok (error_body "Internal server error").
Proof. reflexivity. Qed.

(** The lookup always answers, with a body, and with one of three
    statuses. *)
Lemma handle_api_gateway_event_outcome `{!PyRuntime} event w :
  exists r w', handle_api_gateway_event event w = (Ok r, w')
    /\ body r <> None
    /\ (statusCode r = 200%Z \/ r = not_found_response \/ r = internal_error_response).
Proof.
  unfold handle_api_gateway_event, try_except.
  destruct (api_try_block event w) as [[r|e] w'] eqn:Hrun.
  - exists r, w'. split; [done|]. revert Hrun.
    unfold api_try_block, bind, lift, get_item, ret, raise.
    rewrite json_dumps_not_found.
    intros Hrun. repeat case_match; simplify_eq; (split; [done|]); auto.
  - eexists _, _. split; [reflexivity|]. split; [done|]. auto.
Qed.

Lemma handlers_differ `{!PyRuntime} event w w' :
  handle_s3_event event w <> handle_api_gateway_event event w'.
Proof.
  destruct (handle_api_gateway_event_outcome event w') as (r & w1 & -> & Hbody & _).
  destruct (handle_s3_event_outcome event w) as [(e & w2 & ->)|(w2 & ->)].
  - discriminate.
  - intros [= <- _]. by apply Hbody.
Qed.

Lemma handle_s3_event_not_400 event w w' :
  handle_s3_event event w <> (Ok unknown_source_response, w').
Proof.
  destruct (handle_s3_event_outcome event w) as [(e & w2 & ->)|(w2 & ->)];
    discriminate.
Qed.

Lemma handle_api_gateway_event_not_400 `{!PyRuntime} event w w' :
  handle_api_gateway_event event w <> (Ok unknown_source_response, w').
Proof.
  destruct (handle_api_gateway_event_outcome event w)
    as (r & w1 & -> & _ & [Hs|[->| ->]]); [|discriminate..].
  intros [= -> _]. discriminate.
Qed.

(** The calls of an ingestion: nothing is ever read from the table. *)
Lemma handle_s3_event_calls event w res w' :
  handle_s3_event event w = (res, w') ->
  exists cs, new_calls w w' cs /\ Forall (fun c => is_get_item c = false) cs.
Proof.
  unfold handle_s3_event, try_except, s3_try_block, bind, lift, head_object,
    put_item, print, ret, raise, new_calls.
  intros Hrun.
  repeat case_match; simplify_eq; cbn [calls add_call add_log set_table];
    rewrite <- ?app_assoc;
    first [ by exists [] ; rewrite app_nil_r
          | eexists; split; [reflexivity|]; by repeat constructor ].
Qed.

(** ** Routing *)

Section Routing.
Context `{!PyRuntime}.
Context {Ctx : Type} (context : Ctx).

Lemma lambda_handler_records d w :
  dict_has (lit "Records") d = true ->
  lambda_handler (JDict d) context w
  = handle_s3_event (JDict d) (logged (JDict d) w).
Proof.
  intros Hrec. unfold lambda_handler, bind, print, lift.
  cbn [py_in]. by rewrite Hrec.
Qed.

Lemma lambda_handler_http_method d w :
  dict_has (lit "Records") d = false ->
  dict_has (lit "httpMethod") d = true ->
  lambda_handler (JDict d) context w
  = handle_api_gateway_event (JDict d) (logged (JDict d) w).
Proof.
  intros Hrec Hhttp. unfold lambda_handler, bind, print, lift.
  cbn [py_in]. by rewrite Hrec, Hhttp.
Qed.

Lemma lambda_handler_unknown d w :
  dict_has (lit "Records") d = false ->
  dict_has (lit "httpMethod") d = false ->
  lambda_handler (JDict d) context w
  = (Ok unknown_source_response, logged (JDict d) w).
Proof.
  intros Hrec Hhttp. unfold lambda_handler, bind, print, lift.
  cbn [py_in]. by rewrite Hrec, Hhttp.
Qed.
End Routing.

Lemma notification_is_records event v :
  notification_bucket event = Ok v ->
  exists d, event = JDict d /\ dict_has (lit "Records") d = true.
Proof.
  unfold notification_bucket, subscript, dict_has.
  destruct event as [| | | | |l|d]; cbn [at_key at_0]; try discriminate.
  destruct (dict_get (lit "Records") d) eqn:Hrec; cbn [at_key at_0]; [|discriminate].
  intros _. exists d. by rewrite Hrec.
Qed.

Lemma ingestion_failure_logged event w B k e :
  ingestion_failure w B k e -> ingestion_failure (logged event w) B k e.
Proof.
  destruct 1 as [e He|Hf Hobj|o Hf Hobj Hfield|L C T e Hf Hobj Hput].
  - by apply fetch_refused.
  - by apply object_missing.
  - by apply record_incomplete with o.
  - by apply write_refused with L C T.
Qed.

(** An ingestion one of whose steps fails raises the exception of that
    step; it prints one line and leaves the table as it was. *)
Lemma failed_ingestion event w B K e :
  notification_bucket event = Ok (JStr B) ->
  notification_key event = Ok (JStr K) ->
  ingestion_failure w B (unquote_plus K) e ->
  exists w', handle_s3_event event w = (Raise e, w')
    /\ table_items w' = table_items w
    /\ last (stdout w') = Some (LogS3Error e).
Proof.
  intros HB HK Hfail.
  pose proof (s3_try_block_run event w B K HB HK) as Hrun. cbv zeta in Hrun.
  destruct Hfail as [e He|Hf Hobj|o Hf Hobj Hfield|L C T e Hf Hobj Hput].
  - rewrite He in Hrun.
    eexists. split; [by apply handle_s3_event_reraises|].
    split; [reflexivity|]. cbn [stdout add_log add_call]. apply last_snoc.
  - rewrite Hf, Hobj in Hrun.
    eexists. split; [by apply handle_s3_event_reraises|].
    split; [reflexivity|]. cbn [stdout add_log add_call]. apply last_snoc.
  - rewrite Hf, Hobj in Hrun.
    assert (Hkey : s3_try_block event w
                   = (Raise KeyError, add_call (HeadObject B (unquote_plus K)) w)).
    { rewrite Hrun. destruct o as [[L|] [C|] [T|]]; cbn in Hfield |- *;
        try reflexivity. by destruct Hfield as [?|[?|?]]. }
    eexists. split; [by apply handle_s3_event_reraises|].
    split; [reflexivity|]. cbn [stdout add_log add_call]. apply last_snoc.
  - rewrite Hf, Hobj in Hrun. cbn [ContentLength ContentType LastModified] in Hrun.
    rewrite Hput in Hrun.
    eexists. split; [by apply handle_s3_event_reraises|].
    split; [reflexivity|]. cbn [stdout add_log add_call]. apply last_snoc.
Qed.

Lemma Forall_scalar (l : pystr) :
  forallb is_scalar l = true -> Forall (fun c => is_scalar c = true) l.
Proof. intros Hl. apply Forall_forall. intros c Hc. eapply forallb_forall; [done|]. by apply list_elem_of_In. Qed.

Lemma Forall_literal (l : pystr) :
  forallb is_literal l = true -> Forall (fun c => c < 0x80 /\ c <> 37 /\ c <> 43) l.
Proof.
  intros Hl. apply Forall_forall. intros c Hc.
  assert (Hlit : is_literal c = true).
  { eapply forallb_forall; [done|]. by apply list_elem_of_In. }
  revert Hlit. unfold is_literal. bool_tests; cbn [andb negb]; intros; try discriminate; lia.
Qed.

(** Literal characters in front of an encoding. *)
Lemma url_encoding_literal_prefix a k e :
  Forall (fun c => c < 0x80 /\ c <> 37 /\ c <> 43) a ->
  url_encoding k e -> url_encoding (a ++ k) (a ++ e).
Proof.
  induction 1 as [|c a (Hc & H37 & H43) _ IH]; intros He; [done|].
  cbn [app]. constructor; auto.
Qed.

(** A space inside a key of literal characters, written [+] or [%20],
    decodes to the space. *)
Lemma unquote_plus_space a b :
  Forall (fun c => c < 0x80 /\ c <> 37 /\ c <> 43) a ->
  Forall (fun c => c < 0x80 /\ c <> 37 /\ c <> 43) b ->
  unquote_plus (a ++ lit "+" ++ b) = a ++ lit " " ++ b
  /\ unquote_plus (a ++ lit "%20" ++ b) = a ++ lit " " ++ b.
Proof.
  intros Ha Hb.
  assert (Hbb : url_encoding b b).
  { rewrite <- (app_nil_r b) at 1 2. apply url_encoding_literal_prefix; [done|constructor]. }
  assert (Hscalar : Forall (fun c => is_scalar c = true) (a ++ lit " " ++ b)).
  { apply Forall_app. split; [|constructor; [reflexivity|]];
      (eapply Forall_impl; [eassumption|]);
      intros c (Hc & _); apply is_scalar_spec; lia. }
  split; apply unquote_plus_url_encoding; try done;
    apply url_encoding_literal_prefix; try done.
  - by apply enc_plus.
  - apply (enc_percent 32 b (lit "%20") b); [|done].
    apply (pct_cons 32 [] 50 48 []); [reflexivity..|constructor].
Qed.

(** Without a first record there is no bucket to read: the ingestion
    stops before any request. *)
Lemma no_first_record d :
  spec_ingestion_event d = false ->
  exists e, notification_bucket (JDict d) = Raise e.
Proof.
  unfold spec_ingestion_event, notification_bucket, subscript.
  destruct (dict_get (lit "Records") d) as [[| | | |[|c s]|[|r rs]|d']|];
    cbn [at_0 at_key subscript0 subscript]; intros Hspec;
    try discriminate; by eexists.
Qed.

Lemma handle_s3_event_no_bucket event w e :
  notification_bucket event = Raise e ->
  handle_s3_event event w = (Raise e, add_log (LogS3Error e) w).
Proof.
  intros Hbucket. apply handle_s3_event_reraises.
  unfold s3_try_block, bind, lift. by rewrite Hbucket.
Qed.

(** * The claims *)

(** C1.  After a successful ingestion of the object notified as [K],
    whose content length is [L], content type [C] and last-modified time
    [T], a lookup of the decoded [K] on the table as the ingestion left
    it answers with status 200, the header [Content-Type:
    application/json], and the JSON text in which [imageName] is the
    decoded [K], [size] is [L] written as a bare integer, [contentType]
    is [C] and [lastModified] is [isoformat T].  The decoded [K] is the
    key of the object itself whenever [K] is an encoding of it. *)
Theorem lookup_after_ingestion `{!PyRuntime}
    (event : json) (w : World) (r : Response) (w1 : World)
    (B K : pystr) (L : Z) (C : pystr) (T : datetime)
    (request : json) (w2 : World) :
  notification_bucket event = Ok (JStr B) ->
  notification_key event = Ok (JStr K) ->
  s3_objects w !! (B, unquote_plus K) = Some (mkHead (Some L) (Some C) (Some T)) ->
  handle_s3_event event w = (Ok r, w1) ->
  path_image_name request = Ok (JStr (unquote_plus K)) ->
  table_items w2 = table_items w1 ->
  get_fault w2 (unquote_plus K) = None ->
  handle_api_gateway_event request w2
  = (Ok (mkResponse 200
           (Some (lit "{" ++ quoted "imageName" ++ lit ": " ++ json_string (unquote_plus K)
                  ++ lit ", " ++ quoted "size" ++ lit ": " ++ int_str L
                  ++ lit ", " ++ quoted "contentType" ++ lit ": " ++ json_string C
                  ++ lit ", " ++ quoted "lastModified" ++ lit ": "
                  ++ json_string (isoformat T) ++ lit "}"))
           (Some [(lit "Content-Type", lit "application/json")])),
     add_call (GetItem (JStr (unquote_plus K))) w2)
  /\ (forall object_key : pystr,
        Forall (fun c => is_scalar c = true) object_key ->
        url_encoding object_key K ->
        unquote_plus K = object_key).
Proof.
  intros HB HK Hobj Hrun Hreq Htable Hget.
  split; [|intros object_key; apply unquote_plus_url_encoding].
  destruct (successful_ingestion _ _ _ _ _ _ _ _ _ HB HK Hobj Hrun) as [_ Hw1].
  apply (lookup_stored_record request w2 (unquote_plus K) L C T Hreq Hget).
  by rewrite Htable, Hw1, lookup_insert_eq.
Qed.

Lemma lookup_after_ingestion_witness :
  @handle_api_gateway_event plain_runtime (lookup_request (lit "a b.png")) scenario_ingested
  = (Ok (mkResponse 200
           (Some (lit "{" ++ quoted "imageName" ++ lit ": " ++ quoted "a b.png"
                  ++ lit ", " ++ quoted "size" ++ lit ": 1024"
                  ++ lit ", " ++ quoted "contentType" ++ lit ": " ++ quoted "image/png"
                  ++ lit ", " ++ quoted "lastModified" ++ lit ": "
                  ++ quoted "2024-01-01T00:00:00" ++ lit "}"))
           (Some [(lit "Content-Type", lit "application/json")])),
     add_call (GetItem (JStr (lit "a b.png"))) scenario_ingested).
Proof.
  apply (@lookup_after_ingestion plain_runtime
           (s3_notification (lit "imgs") (lit "a%20b.png")) scenario_world
           ingested_response scenario_ingested (lit "imgs") (lit "a%20b.png")
           1024%Z (lit "image/png") (mkDatetime 2024 1 1 0 0 0 0 None)
           (lookup_request (lit "a b.png")) scenario_ingested);
    vm_compute; reflexivity.
Defined.

(** C2.  On a notification for bucket [B] and key [K], the first request
    of the ingestion is the metadata fetch with [Key] the decoded [K],
    and the only other request it can make is the write of a record
    whose [imageName] is the decoded [K]; the table changes, if at all,
    under that decoded key only.  The decoding maps a space written as
    [+] or as [%20] to the literal space. *)
Theorem ingestion_decodes_key (event : json) (w : World) (B K : pystr) :
  notification_bucket event = Ok (JStr B) ->
  notification_key event = Ok (JStr K) ->
  (exists res w' rest,
      handle_s3_event event w = (res, w')
      /\ new_calls w w' (HeadObject B (unquote_plus K) :: rest)
      /\ ((rest = [] /\ table_items w' = table_items w)
          \/ exists L C T,
               rest = [PutItem (image_item (unquote_plus K) L C T)]
               /\ dict_get (lit "imageName") (image_item (unquote_plus K) L C T)
                  = Some (PyStr (unquote_plus K))
               /\ (table_items w' = table_items w
                   \/ table_items w'
                      = <[unquote_plus K
                          := serialize_item (image_item (unquote_plus K) L C T)]>
                          (table_items w))))
  /\ (forall a b : pystr,
        Forall (fun c => c < 0x80 /\ c <> 37 /\ c <> 43) a ->
        Forall (fun c => c < 0x80 /\ c <> 37 /\ c <> 43) b ->
        unquote_plus (a ++ lit "+" ++ b) = a ++ lit " " ++ b
        /\ unquote_plus (a ++ lit "%20" ++ b) = a ++ lit " " ++ b).
Proof.
  intros HB HK. split; [|apply unquote_plus_space].
  pose proof (s3_try_block_run event w B K HB HK) as Hrun. cbv zeta in Hrun.
  unfold handle_s3_event, try_except, new_calls. rewrite Hrun.
  destruct (s3_fault w B (unquote_plus K)) as [e|].
  { eexists _, _, []. split; [reflexivity|]. split; [reflexivity|]. by left. }
  destruct (s3_objects w !! (B, unquote_plus K)) as [[[L|] [C|] [T|]]|];
    try (eexists _, _, []; split; [reflexivity|]; split; [reflexivity|]; by left).
  cbn [ContentLength ContentType LastModified].
  destruct (put_fault w _) as [e|].
  - eexists _, _, [_]. split; [reflexivity|].
    split; [cbn [calls add_log add_call]; by rewrite <- app_assoc|].
    right. exists L, C, T. split; [reflexivity|]. split; [reflexivity|]. by left.
  - eexists _, _, [_]. split; [reflexivity|].
    split; [cbn [calls add_log add_call set_table]; by rewrite <- app_assoc|].
    right. exists L, C, T. split; [reflexivity|]. split; [reflexivity|]. by right.
Qed.

Lemma ingestion_decodes_key_witness :
  (exists res w' rest,
      handle_s3_event (s3_notification (lit "imgs") (lit "a%20b.png")) scenario_world
      = (res, w')
      /\ new_calls scenario_world w' (HeadObject (lit "imgs") (lit "a b.png") :: rest))
  /\ unquote_plus (lit "my+photo.jpg") = lit "my photo.jpg"
  /\ unquote_plus (lit "my%20photo.jpg") = lit "my photo.jpg".
Proof.
  destruct (ingestion_decodes_key
              (s3_notification (lit "imgs") (lit "a%20b.png")) scenario_world
              (lit "imgs") (lit "a%20b.png") eq_refl eq_refl)
    as [(res & w' & rest & Hrun & Hcalls & _) Hspace].
  split; [by exists res, w', rest|].
  apply (Hspace (lit "my") (lit "photo.jpg")); apply Forall_literal; reflexivity.
Defined.

(** C3, as the program has it.  The router hands an envelope to the
    ingestion exactly when the envelope has a ['Records'] key, whatever
    the value under it; otherwise to the lookup exactly when it has an
    ['httpMethod'] key; otherwise to neither.  The ingestion receives
    the whole envelope and reads the first record only. *)
Theorem routing_by_key_presence `{!PyRuntime} (d : list (pystr * json)) :
  (dispatches_to handle_s3_event (JDict d)
   <-> dict_has (lit "Records") d = true)
  /\ (dispatches_to handle_api_gateway_event (JDict d)
      <-> dict_has (lit "Records") d = false /\ dict_has (lit "httpMethod") d = true)
  /\ (not_dispatched (JDict d)
      <-> dict_has (lit "Records") d = false /\ dict_has (lit "httpMethod") d = false)
  /\ (forall (record : json) (others : list json) (w : World),
        dict_get (lit "Records") d = Some (JList (record :: others)) ->
        handle_s3_event (JDict d) w
        = handle_s3_event (JDict [(lit "Records", JList [record])]) w).
Proof.
  destruct (dict_has (lit "Records") d) eqn:Hrec;
    [|destruct (dict_has (lit "httpMethod") d) eqn:Hhttp].
  - (* a Records key *)
    assert (Hs3 : dispatches_to handle_s3_event (JDict d)).
    { intros Ctx context w. by apply lambda_handler_records. }
    split; [done|]. split; [|split].
    + split; [|by intros [? _]].
      intros Hapi. exfalso.
      apply (handlers_differ (JDict d) (logged (JDict d) empty_world)
                             (logged (JDict d) empty_world)).
      by rewrite <- (Hs3 unit tt), <- (Hapi unit tt).
    + split; [|by intros [? _]].
      intros Hnone. exfalso.
      apply (handle_s3_event_not_400 (JDict d) (logged (JDict d) empty_world)
                                     (logged (JDict d) empty_world)).
      by rewrite <- (Hs3 unit tt), <- (Hnone unit tt).
    + intros record others w Hget.
      unfold handle_s3_event, s3_try_block, notification_bucket,
        notification_key, subscript.
      by rewrite Hget.
  - (* no Records key, an httpMethod key *)
    assert (Hapi : dispatches_to handle_api_gateway_event (JDict d)).
    { intros Ctx context w. by apply lambda_handler_http_method. }
    split; [|split; [done|split]].
    + split; [|done].
      intros Hs3. exfalso.
      apply (handlers_differ (JDict d) (logged (JDict d) empty_world)
                             (logged (JDict d) empty_world)).
      by rewrite <- (Hs3 unit tt), <- (Hapi unit tt).
    + split; [|by intros [_ ?]].
      intros Hnone. exfalso.
      apply (handle_api_gateway_event_not_400 (JDict d) (logged (JDict d) empty_world)
                                              (logged (JDict d) empty_world)).
      by rewrite <- (Hapi unit tt), <- (Hnone unit tt).
    + intros record others w Hget. unfold dict_has in Hrec. by rewrite Hget in Hrec.
  - (* neither key *)
    assert (Hnone : not_dispatched (JDict d)).
    { intros Ctx context w. by apply lambda_handler_unknown. }
    split; [|split; [|split; [done|]]].
    + split; [|done].
      intros Hs3. exfalso.
      apply (handle_s3_event_not_400 (JDict d) (logged (JDict d) empty_world)
                                     (logged (JDict d) empty_world)).
      by rewrite <- (Hs3 unit tt), <- (Hnone unit tt).
    + split; [|by intros [_ ?]].
      intros Hapi. exfalso.
      apply (handle_api_gateway_event_not_400 (JDict d) (logged (JDict d) empty_world)
                                              (logged (JDict d) empty_world)).
      by rewrite <- (Hapi unit tt), <- (Hnone unit tt).
    + intros record others w Hget. unfold dict_has in Hrec. by rewrite Hget in Hrec.
Qed.

Lemma routing_by_key_presence_witness :
  @dispatches_to plain_runtime handle_s3_event
    (JDict [(lit "Records", JList []); (lit "httpMethod", JStr (lit "GET"))]).
Proof.
  apply (@routing_by_key_presence plain_runtime
           [(lit "Records", JList []); (lit "httpMethod", JStr (lit "GET"))]).
  reflexivity.
Defined.

(** C3 as stated fails: an envelope whose records list is empty and
    that has an HTTP method is, in the words of the claim, a query
    event; the router hands it to the ingestion, which raises
    [IndexError], and the lookup is never run. *)
Lemma routing_empty_records_counterexample :
  let d := [(lit "Records", JList []); (lit "httpMethod", JStr (lit "GET"))] in
  spec_ingestion_event d = false
  /\ dict_has (lit "httpMethod") d = true
  /\ @lambda_handler plain_runtime unit (JDict d) tt empty_world
     = handle_s3_event (JDict d) (logged (JDict d) empty_world)
  /\ (@lambda_handler plain_runtime unit (JDict d) tt empty_world).1 = Raise IndexError
  /\ @lambda_handler plain_runtime unit (JDict d) tt empty_world
     <> @handle_api_gateway_event plain_runtime (JDict d) (logged (JDict d) empty_world)
  /\ ~ (@dispatches_to plain_runtime handle_s3_event (JDict d)
        <-> spec_ingestion_event d = true).
Proof.
  cbv zeta. repeat split; try reflexivity.
  - discriminate.
  - intros [Hfwd _].
    assert (Hdisp : @dispatches_to plain_runtime handle_s3_event
              (JDict [(lit "Records", JList []); (lit "httpMethod", JStr (lit "GET"))])).
    { intros Ctx context w. by apply lambda_handler_records. }
    specialize (Hfwd Hdisp). discriminate.
Qed.

(** C4.  Whatever the [try] block of [handle_s3_event] raises is raised
    again, after one line of output; a response is returned only when
    the block ran to its end, and it is the bare status 200.  In
    particular, when the metadata fetch, the construction of the record
    or the table write of an ingestion fails, [handle_s3_event] raises
    the exception of the failing step, and so does the invocation as a
    whole; the table is left as it was. *)
Theorem ingestion_fails_loud `{!PyRuntime} (event : json) (w : World) :
  (forall e w1, s3_try_block event w = (Raise e, w1) ->
     handle_s3_event event w = (Raise e, add_log (LogS3Error e) w1))
  /\ (forall r w1, handle_s3_event event w = (Ok r, w1) ->
        s3_try_block event w = (Ok r, w1) /\ r = mkResponse 200 None None)
  /\ (forall B K e,
        notification_bucket event = Ok (JStr B) ->
        notification_key event = Ok (JStr K) ->
        ingestion_failure w B (unquote_plus K) e ->
        (exists w', handle_s3_event event w = (Raise e, w')
           /\ table_items w' = table_items w
           /\ last (stdout w') = Some (LogS3Error e))
        /\ (forall (Ctx : Type) (context : Ctx),
              exists w', lambda_handler event context w = (Raise e, w')
                /\ table_items w' = table_items w)).
Proof.
  split; [apply handle_s3_event_reraises|]. split.
  - intros r w1 Hrun. split; [by apply handle_s3_event_ok_inv|].
    destruct (handle_s3_event_outcome event w) as [(e & w' & He)|(w' & Hok)];
      rewrite Hrun in *; by simplify_eq.
  - intros B K e HB HK Hfail. split; [by apply (failed_ingestion event w B K)|].
    intros Ctx context.
    destruct (notification_is_records _ _ HB) as (d & -> & Hrec).
    destruct (failed_ingestion (JDict d) (logged (JDict d) w) B K e HB HK)
      as (w' & Hrun & Htable & _).
    { by apply ingestion_failure_logged. }
    exists w'. by rewrite lambda_handler_records.
Qed.

Lemma ingestion_fails_loud_witness :
  exists w',
    @lambda_handler plain_runtime unit
      (s3_notification (lit "imgs") (lit "a%20b.png")) tt unreachable_store
    = (Raise EndpointConnectionError, w').
Proof.
  destruct (@ingestion_fails_loud plain_runtime
              (s3_notification (lit "imgs") (lit "a%20b.png")) unreachable_store)
    as (_ & _ & Hfail).
  destruct (Hfail (lit "imgs") (lit "a%20b.png") EndpointConnectionError
              eq_refl eq_refl) as (_ & Hlambda).
  - apply fetch_refused. reflexivity.
  - destruct (Hlambda unit tt) as (w' & Hrun & _). by exists w'.
Defined.

(** C5.  [handle_api_gateway_event] never raises: it always returns a
    response, and so does the invocation of an envelope routed to it.
    Whatever its [try] block raises is caught and answered with status
    500 and the body [{"error": "Internal server error"}]; so are, in
    particular, a request without the [imageName] path parameter and a
    table read that fails. *)
Theorem query_always_answers `{!PyRuntime} (event : json) (w : World) :
  (exists r w', handle_api_gateway_event event w = (Ok r, w'))
  /\ (forall e w1, api_try_block event w = (Raise e, w1) ->
        handle_api_gateway_event event w
        = (Ok (mkResponse 500
                 (Some (lit "{" ++ quoted "error" ++ lit ": "
                        ++ quoted "Internal server error" ++ lit "}"))
                 None),
           add_log (LogApiError e) w1))
  /\ (forall e, path_image_name event = Raise e ->
        handle_api_gateway_event event w
        = (Ok internal_error_response, add_log (LogApiError e) w))
  /\ (forall k e, path_image_name event = Ok (JStr k) ->
        get_fault w k = Some e ->
        handle_api_gateway_event event w
        = (Ok internal_error_response,
           add_log (LogApiError e) (add_call (GetItem (JStr k)) w)))
  /\ (forall (Ctx : Type) (context : Ctx) (d : list (pystr * json)),
        event = JDict d ->
        dict_has (lit "Records") d = false ->
        dict_has (lit "httpMethod") d = true ->
        exists r w', lambda_handler event context w = (Ok r, w')).
Proof.
  split; [|split; [|split; [|split]]];
    [| | | |intros Ctx context d -> Hrec Hhttp;
            rewrite lambda_handler_http_method by done;
            destruct (handle_api_gateway_event_outcome (JDict d) (logged (JDict d) w))
              as (r & w' & Hrun & _); by exists r, w'].
  - destruct (handle_api_gateway_event_outcome event w) as (r & w' & Hrun & _).
    by exists r, w'.
  - intros e w1. apply handle_api_gateway_event_caught.
  - intros e Hpath. apply handle_api_gateway_event_caught.
    unfold api_try_block, bind, lift. by rewrite Hpath.
  - intros k e Hpath Hget. apply handle_api_gateway_event_caught.
    rewrite (api_try_block_run _ _ _ Hpath). cbv zeta. by rewrite Hget.
Qed.

Lemma query_always_answers_witness :
  @handle_api_gateway_event plain_runtime
    (JDict [(lit "httpMethod", JStr (lit "GET")); (lit "pathParameters", JNull)])
    empty_world
  = (Ok internal_error_response, add_log (LogApiError TypeError) empty_world).
Proof.
  apply (@query_always_answers plain_runtime
           (JDict [(lit "httpMethod", JStr (lit "GET")); (lit "pathParameters", JNull)])
           empty_world).
  reflexivity.
Defined.

(** C6.  A lookup of a key under which the table holds no record is
    answered with status 404 and the body [{"error": "Image not
    found"}]. *)
Theorem lookup_unknown_key `{!PyRuntime} (request : json) (w : World) (k : pystr) :
  path_image_name request = Ok (JStr k) ->
  get_fault w k = None ->
  table_items w !! k = None ->
  handle_api_gateway_event request w
  = (Ok (mkResponse 404
           (Some (lit "{" ++ quoted "error" ++ lit ": "
                  ++ quoted "Image not found" ++ lit "}"))
           None),
     add_call (GetItem (JStr k)) w).
Proof.
  intros Hpath Hget Hnone. apply handle_api_gateway_event_ok.
  rewrite (api_try_block_run _ _ _ Hpath). cbv zeta. by rewrite Hget, Hnone.
Qed.

Lemma lookup_unknown_key_witness :
  @handle_api_gateway_event plain_runtime (lookup_request (lit "zzz.png")) scenario_ingested
  = (Ok not_found_response, add_call (GetItem (JStr (lit "zzz.png"))) scenario_ingested).
Proof.
  apply (@lookup_unknown_key plain_runtime (lookup_request (lit "zzz.png"))
           scenario_ingested (lit "zzz.png")); vm_compute; reflexivity.
Defined.

(** C7.  When the same key is ingested twice, the table after the
    second ingestion is the table before the first one with the second
    record alone under the key: nothing of the first record is kept, and
    a lookup answers with the values of the second ingestion only. *)
Theorem last_write_wins `{!PyRuntime}
    (event1 event2 : json) (w0 : World) (r1 : Response) (w1 w1' : World)
    (r2 : Response) (w2 : World) (B1 K1 B2 K2 k : pystr)
    (L1 : Z) (C1 : pystr) (T1 : datetime) (L2 : Z) (C2 : pystr) (T2 : datetime)
    (request : json) (w3 : World) :
  notification_bucket event1 = Ok (JStr B1) ->
  notification_key event1 = Ok (JStr K1) ->
  unquote_plus K1 = k ->
  notification_bucket event2 = Ok (JStr B2) ->
  notification_key event2 = Ok (JStr K2) ->
  unquote_plus K2 = k ->
  s3_objects w0 !! (B1, k) = Some (mkHead (Some L1) (Some C1) (Some T1)) ->
  handle_s3_event event1 w0 = (Ok r1, w1) ->
  table_items w1' = table_items w1 ->
  s3_objects w1' !! (B2, k) = Some (mkHead (Some L2) (Some C2) (Some T2)) ->
  handle_s3_event event2 w1' = (Ok r2, w2) ->
  path_image_name request = Ok (JStr k) ->
  table_items w3 = table_items w2 ->
  get_fault w3 k = None ->
  table_items w2 = <[k := serialize_item (image_item k L2 C2 T2)]> (table_items w0)
  /\ handle_api_gateway_event request w3
     = (Ok (found_response k L2 C2 T2), add_call (GetItem (JStr k)) w3).
Proof.
  intros HB1 HK1 Hk1 HB2 HK2 Hk2 Hobj1 Hrun1 Htable1 Hobj2 Hrun2 Hreq Htable3 Hget.
  subst k. rewrite <- Hk2 in Hobj2.
  destruct (successful_ingestion _ _ _ _ _ _ _ _ _ HB1 HK1 Hobj1 Hrun1) as [_ Hw1].
  destruct (successful_ingestion _ _ _ _ _ _ _ _ _ HB2 HK2 Hobj2 Hrun2) as [_ Hw2].
  rewrite Htable1, Hw1, Hk2, insert_insert_eq in Hw2.
  split; [exact Hw2|].
  apply lookup_stored_record; [done..|].
  by rewrite Htable3, Hw2, lookup_insert_eq.
Qed.

Lemma last_write_wins_witness :
  @handle_api_gateway_event plain_runtime (lookup_request (lit "a b.png"))
    scenario_ingested_again
  = (Ok (found_response (lit "a b.png") 2048 (lit "image/jpeg")
           (mkDatetime 2024 2 2 12 30 0 0 (Some 0%Z))),
     add_call (GetItem (JStr (lit "a b.png"))) scenario_ingested_again).
Proof.
  apply (@last_write_wins plain_runtime
           (s3_notification (lit "imgs") (lit "a%20b.png"))
           (s3_notification (lit "imgs") (lit "a+b.png"))
           scenario_world ingested_response scenario_ingested scenario_reuploaded
           ingested_response scenario_ingested_again
           (lit "imgs") (lit "a%20b.png") (lit "imgs") (lit "a+b.png") (lit "a b.png")
           1024%Z (lit "image/png") (mkDatetime 2024 1 1 0 0 0 0 None)
           2048%Z (lit "image/jpeg") (mkDatetime 2024 2 2 12 30 0 0 (Some 0%Z))
           (lookup_request (lit "a b.png")) scenario_ingested_again);
    vm_compute; reflexivity.
Defined.

(** C8, as the program has it.  An envelope with neither a ['Records']
    key nor an ['httpMethod'] key is answered with status 400 and the
    body ["Unknown event source"]; the invocation sends no request to
    the store or the table and changes neither, it only prints the
    event.  The router never does more by itself: on any envelope, all
    it adds before it hands over or answers is that one line of
    output.  And no envelope without a first record and without an
    ['httpMethod'] key leads to a request, whatever the answer. *)
Theorem unknown_event_source `{!PyRuntime} {Ctx : Type} (context : Ctx)
    (d : list (pystr * json)) (w : World) :
  dict_has (lit "Records") d = false ->
  dict_has (lit "httpMethod") d = false ->
  (exists w',
      lambda_handler (JDict d) context w
      = (Ok (mkResponse 400 (Some (quoted "Unknown event source")) None), w')
      /\ calls w' = calls w
      /\ s3_objects w' = s3_objects w
      /\ table_items w' = table_items w
      /\ stdout w' = stdout w ++ [LogEventReceived (JDict d)])
  /\ (forall d' : list (pystr * json),
        (lambda_handler (JDict d') context w
         = handle_s3_event (JDict d') (logged (JDict d') w)
         \/ lambda_handler (JDict d') context w
            = handle_api_gateway_event (JDict d') (logged (JDict d') w)
         \/ lambda_handler (JDict d') context w
            = (Ok unknown_source_response, logged (JDict d') w))
        /\ calls (logged (JDict d') w) = calls w
        /\ s3_objects (logged (JDict d') w) = s3_objects w
        /\ table_items (logged (JDict d') w) = table_items w)
  /\ (forall (d' : list (pystr * json)) res w',
        spec_ingestion_event d' = false ->
        dict_has (lit "httpMethod") d' = false ->
        lambda_handler (JDict d') context w = (res, w') ->
        calls w' = calls w
        /\ s3_objects w' = s3_objects w
        /\ table_items w' = table_items w).
Proof.
  intros Hrec Hhttp. split; [|split].
  - exists (logged (JDict d) w). split; [by apply lambda_handler_unknown|done].
  - intros d'. split; [|done].
    destruct (dict_has (lit "Records") d') eqn:Hrec';
      [|destruct (dict_has (lit "httpMethod") d') eqn:Hhttp'].
    + left. by apply lambda_handler_records.
    + right. left. by apply lambda_handler_http_method.
    + right. right. by apply lambda_handler_unknown.
  - intros d' res w' Hspec Hhttp'.
    destruct (dict_has (lit "Records") d') eqn:Hrec'.
    + rewrite lambda_handler_records by done.
      destruct (no_first_record d' Hspec) as [e He].
      rewrite (handle_s3_event_no_bucket _ _ _ He). by intros [= <- <-].
    + rewrite lambda_handler_unknown by done. by intros [= <- <-].
Qed.

Lemma unknown_event_source_witness :
  exists w',
    @lambda_handler plain_runtime unit (JDict [(lit "source", JStr (lit "aws.events"))])
      tt scenario_ingested
    = (Ok (mkResponse 400 (Some (quoted "Unknown event source")) None), w')
    /\ calls w' = calls scenario_ingested
    /\ s3_objects w' = s3_objects scenario_ingested
    /\ table_items w' = table_items scenario_ingested
    /\ stdout w'
       = stdout scenario_ingested
         ++ [LogEventReceived (JDict [(lit "source", JStr (lit "aws.events"))])].
Proof.
  apply (@unknown_event_source plain_runtime unit tt
           [(lit "source", JStr (lit "aws.events"))] scenario_ingested);
    reflexivity.
Defined.

(** C8 as stated fails: an envelope whose ['Records'] key holds no list
    has neither a records list nor an HTTP method, yet the router hands
    it to the ingestion, and the invocation raises [TypeError] instead
    of answering with status 400.  No request is sent. *)
Lemma unknown_source_records_not_list_counterexample :
  let d := [(lit "Records", JNull)] in
  spec_records_list d = false
  /\ dict_has (lit "httpMethod") d = false
  /\ @lambda_handler plain_runtime unit (JDict d) tt empty_world
     = (Raise TypeError,
        add_log (LogS3Error TypeError) (logged (JDict d) empty_world))
  /\ (forall r w', @lambda_handler plain_runtime unit (JDict d) tt empty_world
                   <> (Ok r, w')).
Proof. cbv zeta. repeat split; try reflexivity. intros r w'. discriminate. Qed.

(** C9.  For a key made of Unicode scalar values, decoding any
    percent/plus-encoding of the key, as the ingestion decodes it, gives
    back exactly the key; in particular for the store's canonical
    encoding, so that a round trip is the identity and repeating it
    changes nothing. *)
Theorem key_encoding_round_trip (k : pystr) :
  Forall (fun c => is_scalar c = true) k ->
  (forall e, url_encoding k e -> unquote_plus e = k)
  /\ unquote_plus (store_encode k) = k
  /\ key_round_trip (key_round_trip k) = key_round_trip k.
Proof.
  intros Hk.
  assert (Hrt : unquote_plus (store_encode k) = k).
  { apply unquote_plus_url_encoding; [done|]. by apply store_encode_url_encoding. }
  split; [intros e; by apply unquote_plus_url_encoding|].
  split; [exact Hrt|].
  unfold key_round_trip. by rewrite !Hrt.
Qed.

Lemma key_encoding_round_trip_witness :
  store_encode (lit "my photo.jpg") = lit "my+photo.jpg"
  /\ unquote_plus (store_encode (lit "my photo.jpg")) = lit "my photo.jpg".
Proof.
  split; [reflexivity|].
  apply (key_encoding_round_trip (lit "my photo.jpg")).
  apply Forall_scalar. reflexivity.
Defined.

(** C10.  An envelope that has both a ['Records'] key and an
    ['httpMethod'] key goes to the ingestion and never to the lookup:
    the invocation is the ingestion's run, it differs from every run of
    the lookup, and it reads nothing from the table. *)
Theorem records_take_precedence `{!PyRuntime} (d : list (pystr * json)) :
  dict_has (lit "Records") d = true ->
  dict_has (lit "httpMethod") d = true ->
  dispatches_to handle_s3_event (JDict d)
  /\ ~ dispatches_to handle_api_gateway_event (JDict d)
  /\ (forall (Ctx : Type) (context : Ctx) (w w'' : World),
        lambda_handler (JDict d) context w
        <> handle_api_gateway_event (JDict d) w'')
  /\ (forall (Ctx : Type) (context : Ctx) (w : World) res w',
        lambda_handler (JDict d) context w = (res, w') ->
        exists cs, new_calls w w' cs /\ Forall (fun c => is_get_item c = false) cs).
Proof.
  intros Hrec Hhttp.
  assert (Hdiff : forall (Ctx : Type) (context : Ctx) (w w'' : World),
             lambda_handler (JDict d) context w
             <> handle_api_gateway_event (JDict d) w'').
  { intros Ctx context w w''. rewrite lambda_handler_records by done.
    apply handlers_differ. }
  split; [|split; [|split]].
  - intros Ctx context w. by apply lambda_handler_records.
  - intros Hapi. by apply (Hdiff unit tt empty_world (logged (JDict d) empty_world)).
  - exact Hdiff.
  - intros Ctx context w res w'. rewrite lambda_handler_records by done.
    intros Hrun. apply handle_s3_event_calls in Hrun as (cs & Hcalls & Hcs).
    by exists cs.
Qed.

Lemma records_take_precedence_witness :
  @dispatches_to plain_runtime handle_s3_event
    (JDict [(lit "httpMethod", JStr (lit "POST"));
            (lit "Records", JList [JDict [(lit "s3", JDict [])]])]).
Proof.
  apply (@records_take_precedence plain_runtime
           [(lit "httpMethod", JStr (lit "POST"));
            (lit "Records", JList [JDict [(lit "s3", JDict [])]])]);
    reflexivity.
Defined.

(** * Further properties of the handlers *)

(** ** Ingestion *)

(** A run of the ingestion that returns: everything it met on the way. *)
Lemma handle_s3_event_ok_run event w r w1 :
  handle_s3_event event w = (Ok r, w1) ->
  exists B K L C T,
    notification_bucket event = Ok (JStr B)
    /\ notification_key event = Ok (JStr K)
    /\ s3_fault w B (unquote_plus K) = None
    /\ s3_objects w !! (B, unquote_plus K) = Some (mkHead (Some L) (Some C) (Some T))
    /\ put_fault w (serialize_item (image_item (unquote_plus K) L C T)) = None
    /\ r = ingested_response
    /\ w1 = add_log (LogProcessed (unquote_plus K))
              (set_table
                 (<[unquote_plus K
                    := serialize_item (image_item (unquote_plus K) L C T)]>
                    (table_items w))
                 (add_call (PutItem (image_item (unquote_plus K) L C T))
                    (add_call (HeadObject B (unquote_plus K)) w))).
Proof.
  intros Hrun. apply handle_s3_event_ok_inv in Hrun.
  destruct (notification_bucket event) as [bucket|e] eqn:HB;
    [|unfold s3_try_block, bind, lift in Hrun; by rewrite HB in Hrun].
  destruct (notification_key event) as [key|e] eqn:HK;
    [|unfold s3_try_block, bind, lift in Hrun; by rewrite HB, HK in Hrun].
  destruct key as [| | | |K| |];
    try (unfold s3_try_block, bind, lift in Hrun; by rewrite HB, HK in Hrun).
  destruct bucket as [| | | |B| |];
    try (unfold s3_try_block, bind, lift in Hrun; by rewrite HB, HK in Hrun).
  rewrite (s3_try_block_run _ _ _ _ HB HK) in Hrun. cbv zeta in Hrun.
  destruct (s3_fault w B (unquote_plus K)) eqn:Hfault; [discriminate|].
  destruct (s3_objects w !! (B, unquote_plus K)) as [[[L|] [C|] [T|]]|] eqn:Hobj;
    try discriminate.
  cbn [ContentLength ContentType LastModified] in Hrun.
  destruct (put_fault w _) eqn:Hput; [discriminate|].
  injection Hrun as <- <-. by exists B, K, L, C, T.
Qed.

(** A run of the ingestion that raises leaves the table as it was and
    sends at most the fetch and the write, in that order. *)
Lemma handle_s3_event_raise_run event w e w1 :
  handle_s3_event event w = (Raise e, w1) ->
  s3_objects w1 = s3_objects w /\ table_items w1 = table_items w.
Proof.
  unfold handle_s3_event, try_except, s3_try_block, bind, lift, head_object,
    put_item, print, ret, raise.
  intros Hrun. repeat case_match; simplify_eq; done.
Qed.


(** X1.  An ingestion that returns has sent exactly two requests, the
    fetch and then the write, for the bucket and the decoded key of the
    first record; the object was in the store with all three metadata,
    the record now in the table holds exactly those (the size as a
    number, the time in ISO format), the store itself is untouched and
    the one line printed names the decoded key. *)
Theorem ingestion_records_store_metadata (event : json) (w : World)
    (r : Response) (w1 : World) :
  handle_s3_event event w = (Ok r, w1) ->
  exists B K L C T,
    notification_bucket event = Ok (JStr B)
    /\ notification_key event = Ok (JStr K)
    /\ s3_objects w !! (B, unquote_plus K) = Some (mkHead (Some L) (Some C) (Some T))
    /\ new_calls w w1 [HeadObject B (unquote_plus K);
                       PutItem (image_item (unquote_plus K) L C T)]
    /\ table_items w1 !! unquote_plus K
       = Some [(lit "imageName", AttrS (unquote_plus K));
               (lit "size", AttrN (mkDecimal L 0));
               (lit "contentType", AttrS C);
               (lit "lastModified", AttrS (isoformat T))]
    /\ s3_objects w1 = s3_objects w
    /\ stdout w1 = stdout w ++ [LogProcessed (unquote_plus K)].
Proof.
  intros Hrun.
  destruct (handle_s3_event_ok_run _ _ _ _ Hrun)
    as (B & K & L & C & T & HB & HK & _ & Hobj & _ & _ & ->).
  exists B, K, L, C, T. repeat split; try done.
  - unfold new_calls. cbn [calls add_log set_table add_call].
    by rewrite <- app_assoc.
  - cbn [table_items add_log set_table]. by rewrite lookup_insert_eq.
Qed.

Lemma ingestion_records_store_metadata_witness :
  exists B K L C T,
    notification_bucket (s3_notification (lit "imgs") (lit "a%20b.png")) = Ok (JStr B)
    /\ notification_key (s3_notification (lit "imgs") (lit "a%20b.png")) = Ok (JStr K)
    /\ s3_objects scenario_world !! (B, unquote_plus K)
       = Some (mkHead (Some L) (Some C) (Some T))
    /\ new_calls scenario_world scenario_ingested
         [HeadObject B (unquote_plus K); PutItem (image_item (unquote_plus K) L C T)].
Proof.
  destruct (ingestion_records_store_metadata
              (s3_notification (lit "imgs") (lit "a%20b.png")) scenario_world
              ingested_response scenario_ingested)
    as (B & K & L & C & T & HB & HK & Hobj & Hcalls & _).
  - vm_compute. reflexivity.
  - by exists B, K, L, C, T.
Defined.

(** X2.  Whatever the event and the outcome, the ingestion never
    changes the object store; when it raises it leaves the whole table
    as it was, and when it returns it leaves every record but the one
    under the decoded key as it was. *)
Theorem ingestion_touches_one_record (event : json) (w : World)
    (res : result Response) (w1 : World) :
  handle_s3_event event w = (res, w1) ->
  s3_objects w1 = s3_objects w
  /\ (forall e, res = Raise e -> table_items w1 = table_items w)
  /\ (forall K k', notification_key event = Ok (JStr K) ->
        k' <> unquote_plus K ->
        table_items w1 !! k' = table_items w !! k').
Proof.
  intros Hrun. destruct res as [r|e].
  - destruct (handle_s3_event_ok_run _ _ _ _ Hrun)
      as (B & K & L & C & T & HB & HK & _ & Hobj & _ & _ & ->).
    split; [done|]. split; [done|].
    intros K' k' HK' Hne. rewrite HK in HK'. injection HK' as <-.
    cbn [table_items add_log set_table]. by rewrite lookup_insert_ne.
  - destruct (handle_s3_event_raise_run _ _ _ _ Hrun) as [Hs3 Htable].
    split; [done|]. split; [done|].
    intros K k' _ _. by rewrite Htable.
Qed.

Lemma ingestion_touches_one_record_witness :
  s3_objects scenario_ingested_again = s3_objects scenario_reuploaded
  /\ table_items scenario_ingested_again !! lit "other.png"
     = table_items scenario_reuploaded !! lit "other.png".
Proof.
  destruct (ingestion_touches_one_record
              (s3_notification (lit "imgs") (lit "a+b.png")) scenario_reuploaded
              (Ok ingested_response) scenario_ingested_again)
    as (Hstore & _ & Hframe).
  - vm_compute. reflexivity.
  - split; [exact Hstore|].
    apply (Hframe (lit "a+b.png") (lit "other.png")); [reflexivity|].
    vm_compute. discriminate.
Defined.




(** X4.  Delivering the same notification again, with the store as it
    was, succeeds again and leaves the table exactly as the first
    delivery left it. *)
Theorem ingestion_redelivery (event : json) (w : World) (r : Response)
    (w1 : World) :
  handle_s3_event event w = (Ok r, w1) ->
  exists w2,
    handle_s3_event event w1 = (Ok r, w2)
    /\ table_items w2 = table_items w1.
Proof.
  intros Hrun.
  destruct (handle_s3_event_ok_run _ _ _ _ Hrun)
    as (B & K & L & C & T & HB & HK & Hfault & Hobj & Hput & -> & ->).
  eexists. split.
  - apply handle_s3_event_ok. rewrite (s3_try_block_run _ _ _ _ HB HK).
    cbv zeta. cbn [s3_fault s3_objects put_fault add_log set_table add_call].
    rewrite Hfault, Hobj. cbn [ContentLength ContentType LastModified].
    rewrite Hput. reflexivity.
  - cbn [table_items add_log set_table add_call]. by rewrite insert_insert_eq.
Qed.

Lemma ingestion_redelivery_witness :
  exists w2,
    handle_s3_event (s3_notification (lit "imgs") (lit "a%20b.png")) scenario_ingested
    = (Ok ingested_response, w2)
    /\ table_items w2 = table_items scenario_ingested.
Proof.
  apply (ingestion_redelivery
           (s3_notification (lit "imgs") (lit "a%20b.png")) scenario_world
           ingested_response scenario_ingested).
  vm_compute. reflexivity.
Defined.

(** ** Lookup *)

(** The lookup, whatever it is given: its trace and what it leaves. *)
Lemma handle_api_gateway_event_frame `{!PyRuntime} event w res w1 :
  handle_api_gateway_event event w = (res, w1) ->
  s3_objects w1 = s3_objects w
  /\ table_items w1 = table_items w
  /\ s3_fault w1 = s3_fault w
  /\ (calls w1 = calls w \/ exists v, calls w1 = calls w ++ [GetItem v]).
Proof.
  unfold handle_api_gateway_event, try_except, api_try_block, bind, lift,
    get_item, print, ret, raise.
  intros Hrun.
  repeat case_match; simplify_eq; cbn [calls add_call add_log];
    (repeat split; try done); eauto.
Qed.

(** X5.  The lookup is read-only: whatever the request and the outcome,
    it changes neither the table nor the object store, and it sends at
    most one request, a read of the table. *)
Theorem query_is_read_only `{!PyRuntime} (event : json) (w : World)
    (res : result Response) (w1 : World) :
  handle_api_gateway_event event w = (res, w1) ->
  table_items w1 = table_items w
  /\ s3_objects w1 = s3_objects w
  /\ (calls w1 = calls w \/ exists v, calls w1 = calls w ++ [GetItem v]).
Proof.
  intros Hrun.
  destruct (handle_api_gateway_event_frame _ _ _ _ Hrun) as (? & ? & _ & ?).
  done.
Qed.

Lemma query_is_read_only_witness :
  table_items
    (@handle_api_gateway_event plain_runtime (lookup_request (lit "a b.png"))
       scenario_ingested).2
  = table_items scenario_ingested.
Proof.
  apply (@query_is_read_only plain_runtime (lookup_request (lit "a b.png"))
           scenario_ingested
           (@handle_api_gateway_event plain_runtime (lookup_request (lit "a b.png"))
              scenario_ingested).1).
  by destruct (@handle_api_gateway_event plain_runtime
                 (lookup_request (lit "a b.png")) scenario_ingested).
Defined.

(** X6.  For a request whose path parameter is a string and a table
    that answers, the status is 404 exactly when the table holds no
    record under that very string; a record that is there gives 200 or,
    when it cannot be rendered, 500. *)
Theorem not_found_iff_absent `{!PyRuntime} (request : json) (w : World)
    (k : pystr) (r : Response) (w1 : World) :
  path_image_name request = Ok (JStr k) ->
  get_fault w k = None ->
  handle_api_gateway_event request w = (Ok r, w1) ->
  (statusCode r = 404%Z <-> table_items w !! k = None)
  /\ (is_Some (table_items w !! k) -> statusCode r = 200%Z \/ statusCode r = 500%Z).
Proof.
  intros Hpath Hget. unfold handle_api_gateway_event, try_except.
  rewrite (api_try_block_run _ _ _ Hpath). cbv zeta. rewrite Hget.
  unfold bind, print, lift, ret. rewrite json_dumps_internal_error.
  destruct (table_items w !! k) as [stored|].
  - destruct (normalize_size (deserialize_item stored)) as [item|e];
      [destruct (json_dumps (PyDict item)) as [b|e]|];
      intros [= <- <-]; cbn [statusCode]; (split; [split; intros; done|]); auto.
  - intros [= <- <-]. split; [done|]. by intros [? ?].
Qed.

Lemma not_found_iff_absent_witness :
  statusCode
    (mkResponse 404 (Some (error_body "Image not found")) None) = 404%Z
  <-> table_items scenario_ingested !! lit "zzz.png" = None.
Proof.
  apply (@not_found_iff_absent plain_runtime (lookup_request (lit "zzz.png"))
           scenario_ingested (lit "zzz.png") not_found_response
           (add_call (GetItem (JStr (lit "zzz.png"))) scenario_ingested));
    vm_compute; reflexivity.
Defined.

(** X7.  The lookup does not decode its path parameter.  After the
    ingestion of a key whose decoded form differs from what the
    notification carried, a lookup by the string as it was carried is
    answered 404, unless the table already held a record under it. *)
Theorem lookup_is_not_decoded `{!PyRuntime} (event : json) (w : World)
    (r : Response) (w1 : World) (K : pystr) (request : json) :
  notification_key event = Ok (JStr K) ->
  unquote_plus K <> K ->
  table_items w !! K = None ->
  handle_s3_event event w = (Ok r, w1) ->
  path_image_name request = Ok (JStr K) ->
  get_fault w1 K = None ->
  handle_api_gateway_event request w1
  = (Ok not_found_response, add_call (GetItem (JStr K)) w1).
Proof.
  intros HK Hne Hnone Hrun Hpath Hget.
  destruct (handle_s3_event_ok_run _ _ _ _ Hrun)
    as (B & K' & L & C & T & HB & HK' & _ & Hobj & _ & _ & Hw1).
  rewrite HK in HK'. injection HK' as <-.
  apply handle_api_gateway_event_ok.
  rewrite (api_try_block_run _ _ _ Hpath). cbv zeta. rewrite Hget.
  replace (table_items w1 !! K) with (@None (list (pystr * attr))); [done|].
  rewrite Hw1. cbn [table_items add_log set_table].
  by rewrite lookup_insert_ne.
Qed.

Lemma lookup_is_not_decoded_witness :
  @handle_api_gateway_event plain_runtime (lookup_request (lit "a%20b.png"))
    scenario_ingested
  = (Ok not_found_response,
     add_call (GetItem (JStr (lit "a%20b.png"))) scenario_ingested).
Proof.
  apply (@lookup_is_not_decoded plain_runtime
           (s3_notification (lit "imgs") (lit "a%20b.png")) scenario_world
           ingested_response scenario_ingested (lit "a%20b.png")
           (lookup_request (lit "a%20b.png")));
    vm_compute; (reflexivity || discriminate).
Defined.

(** ** Records the lookup cannot render *)

Lemma dict_get_deserialize_item a stored :
  dict_get a (deserialize_item stored) = deserialize <$> dict_get a stored.
Proof.
  induction stored as [|[k v] stored IH]; [reflexivity|].
  cbn [deserialize_item map dict_get fst snd].
  destruct (key_eqb k a); [reflexivity|exact IH].
Qed.

Lemma dict_get_dict_set_ne {V} (a k : pystr) (v : V) d :
  a <> k -> dict_get a (dict_set k v d) = dict_get a d.
Proof.
  intros Hne. induction d as [|[k' v'] d IH]; cbn [dict_set dict_get].
  - unfold key_eqb. by rewrite bool_decide_eq_false_2.
  - destruct (key_eqb k' k) eqn:Hk; cbn [dict_get]; [|by rewrite IH].
    unfold key_eqb in *. apply bool_decide_eq_true in Hk as ->.
    by rewrite bool_decide_eq_false_2.
Qed.

Lemma dict_get_dict_set_eq {V} (k : pystr) (v : V) d :
  is_Some (dict_get k d) -> dict_get k (dict_set k v d) = Some v.
Proof.
  induction d as [|[k' v'] d IH]; cbn [dict_set dict_get].
  - by intros [? ?].
  - destruct (key_eqb k' k) eqn:Hk; cbn [dict_get]; rewrite Hk; [done|exact IH].
Qed.

Lemma dict_set_keys {V} (k : pystr) (v : V) d :
  is_Some (dict_get k d) -> map fst (dict_set k v d) = map fst d.
Proof.
  induction d as [|[k' v'] d IH]; cbn [dict_set dict_get map fst].
  - by intros [? ?].
  - destruct (key_eqb k' k); [reflexivity|]. intros Hsome.
    cbn [map fst]. by rewrite IH.
Qed.

(** A dictionary with a [Decimal] under one of its keys has no JSON
    text. *)
Lemma json_dumps_decimal_entry a x d :
  dict_get a d = Some (PyDecimal x) ->
  exists e, json_dumps (PyDict d) = Raise e.
Proof.
  intros Hget. cbn [json_dumps].
  enough (exists e,
    sequence (map (fun kv : pystr * pyval =>
                     match json_dumps kv.2 with
                     | Ok s => Ok (json_string kv.1 ++ lit ": " ++ s)
                     | Raise e => Raise e
                     end) d) = Raise e) as [e ->] by eauto.
  induction d as [|[k v] d IH]; [discriminate|].
  cbn [dict_get] in Hget. cbn [map sequence fst snd].
  destruct (key_eqb k a).
  - injection Hget as ->. cbn [json_dumps]. eauto.
  - destruct (IH Hget) as [e He]. rewrite He.
    destruct (json_dumps v); eauto.
Qed.

(** X8.  Only [size] is turned back into an [int]: a stored record with
    a number under any other attribute cannot be rendered, and its
    lookup is answered with status 500 whatever else the record
    holds. *)
Theorem other_number_attribute_fails `{!PyRuntime} (request : json) (w : World)
    (k a : pystr) (stored : list (pystr * attr)) (x : PyDecimal_t) :
  path_image_name request = Ok (JStr k) ->
  get_fault w k = None ->
  table_items w !! k = Some stored ->
  a <> lit "size" ->
  dict_get a stored = Some (AttrN x) ->
  exists e,
    handle_api_gateway_event request w
    = (Ok internal_error_response,
       add_log (LogApiError e) (add_call (GetItem (JStr k)) w)).
Proof.
  intros Hpath Hget Hstored Hne Hattr.
  enough (exists e, api_try_block request w
                    = (Raise e, add_call (GetItem (JStr k)) w)) as [e He].
  { exists e. by apply handle_api_gateway_event_caught. }
  rewrite (api_try_block_run _ _ _ Hpath). cbv zeta. rewrite Hget, Hstored.
  destruct (normalize_size (deserialize_item stored)) as [item|e] eqn:Hnorm;
    [|eauto].
  destruct (json_dumps_decimal_entry a x item) as [e He]; [|rewrite He; eauto].
  revert Hnorm. unfold normalize_size.
  destruct (dict_get (lit "size") (deserialize_item stored)); [|discriminate].
  destruct (py_int p); [|discriminate]. intros [= <-].
  rewrite dict_get_dict_set_ne by done.
  by rewrite dict_get_deserialize_item, Hattr.
Qed.

Lemma other_number_attribute_fails_witness :
  exists e,
    @handle_api_gateway_event plain_runtime (lookup_request (lit "p.png"))
      (set_table {[ lit "p.png" := [(lit "imageName", AttrS (lit "p.png"));
                                    (lit "size", AttrN (mkDecimal 10 0));
                                    (lit "width", AttrN (mkDecimal 640 0))] ]}
         empty_world)
    = (Ok internal_error_response,
       add_log (LogApiError e)
         (add_call (GetItem (JStr (lit "p.png")))
            (set_table {[ lit "p.png" := [(lit "imageName", AttrS (lit "p.png"));
                                          (lit "size", AttrN (mkDecimal 10 0));
                                          (lit "width", AttrN (mkDecimal 640 0))] ]}
               empty_world))).
Proof.
  apply (@other_number_attribute_fails plain_runtime (lookup_request (lit "p.png"))
           _ (lit "p.png") (lit "width")
           [(lit "imageName", AttrS (lit "p.png"));
            (lit "size", AttrN (mkDecimal 10 0));
            (lit "width", AttrN (mkDecimal 640 0))] (mkDecimal 640 0));
    vm_compute; (reflexivity || discriminate).
Defined.

(** X9.  A stored record without a [size], or whose [size] is null, a
    list or a map, is answered with status 500: the missing key is a
    [KeyError], the other three a [TypeError]. *)
Theorem unusable_size_fails `{!PyRuntime} (request : json) (w : World)
    (k : pystr) (stored : list (pystr * attr)) :
  path_image_name request = Ok (JStr k) ->
  get_fault w k = None ->
  table_items w !! k = Some stored ->
  (dict_get (lit "size") stored = None ->
   handle_api_gateway_event request w
   = (Ok internal_error_response,
      add_log (LogApiError KeyError) (add_call (GetItem (JStr k)) w)))
  /\ ((dict_get (lit "size") stored = Some AttrNULL
       \/ (exists l, dict_get (lit "size") stored = Some (AttrL l))
       \/ (exists m, dict_get (lit "size") stored = Some (AttrM m))) ->
      handle_api_gateway_event request w
      = (Ok internal_error_response,
         add_log (LogApiError TypeError) (add_call (GetItem (JStr k)) w))).
Proof.
  intros Hpath Hget Hstored.
  split; intros Hsize; apply handle_api_gateway_event_caught;
    rewrite (api_try_block_run _ _ _ Hpath); cbv zeta;
    rewrite Hget, Hstored; unfold normalize_size;
    rewrite dict_get_deserialize_item.
  - by rewrite Hsize.
  - by destruct Hsize as [->|[[l ->]|[m ->]]].
Qed.

Lemma unusable_size_fails_witness :
  @handle_api_gateway_event plain_runtime (lookup_request (lit "p.png"))
    (set_table {[ lit "p.png" := [(lit "imageName", AttrS (lit "p.png"))] ]}
       empty_world)
  = (Ok internal_error_response,
     add_log (LogApiError KeyError)
       (add_call (GetItem (JStr (lit "p.png")))
          (set_table {[ lit "p.png" := [(lit "imageName", AttrS (lit "p.png"))] ]}
             empty_world))).
Proof.
  apply (@unusable_size_fails plain_runtime (lookup_request (lit "p.png")) _
           (lit "p.png") [(lit "imageName", AttrS (lit "p.png"))]);
    vm_compute; reflexivity.
Defined.

(** X10.  [item['size'] = int(item['size'])] changes nothing but the
    value under [size]: the keys stay in their order, every other
    attribute keeps its value, and [size] afterwards is an [int]. *)
Theorem normalize_size_keeps_rest `{!PyRuntime} (item item' : list (pystr * pyval)) :
  normalize_size item = Ok item' ->
  map fst item' = map fst item
  /\ (forall a, a <> lit "size" -> dict_get a item' = dict_get a item)
  /\ (exists n, dict_get (lit "size") item' = Some (PyInt n)
                /\ (forall v, dict_get (lit "size") item = Some v -> py_int v = Ok n)).
Proof.
  unfold normalize_size.
  destruct (dict_get (lit "size") item) as [v|] eqn:Hsize; [|discriminate].
  destruct (py_int v) as [n|e] eqn:Hint; [|discriminate]. intros [= <-].
  split; [apply dict_set_keys; by exists v|].
  split; [intros a Ha; by apply dict_get_dict_set_ne|].
  exists n. split; [|by intros v' [= <-]].
  apply dict_get_dict_set_eq. by exists v.
Qed.

Lemma normalize_size_keeps_rest_witness :
  map fst [(lit "imageName", PyStr (lit "p.png")); (lit "size", PyInt 12)]
  = map fst [(lit "imageName", PyStr (lit "p.png"));
             (lit "size", PyDecimal (mkDecimal 129 (-1)))].
Proof.
  apply (@normalize_size_keeps_rest plain_runtime
           [(lit "imageName", PyStr (lit "p.png"));
            (lit "size", PyDecimal (mkDecimal 129 (-1)))]
           [(lit "imageName", PyStr (lit "p.png")); (lit "size", PyInt 12)]).
  vm_compute. reflexivity.
Defined.

(** ** Decoding of keys *)

Lemma plus_to_space_plain (s : pystr) :
  Forall (fun c => c <> 43) s -> map plus_to_space s = s.
Proof.
  induction 1 as [|c s Hc _ IH]; [reflexivity|].
  cbn [map]. rewrite IH. unfold plus_to_space.
  destruct (N.eqb_spec c 43); [done|reflexivity].
Qed.

Lemma no_percent (s : pystr) :
  Forall (fun c => c <> 37) s -> existsb (N.eqb 37) s = false.
Proof.
  induction 1 as [|c s Hc _ IH]; [reflexivity|].
  cbn [existsb]. rewrite IH. destruct (N.eqb_spec 37 c); [done|reflexivity].
Qed.

(** X11.  A key that holds neither [%] nor [+] is used as it is,
    whatever its other characters, ASCII or not: only those two
    characters make the decoded key differ from the notified one. *)
Theorem unquote_plus_plain (K : pystr) :
  Forall (fun c => c <> 37 /\ c <> 43) K ->
  unquote_plus K = K.
Proof.
  intros HK. unfold unquote_plus, unquote.
  rewrite plus_to_space_plain by (eapply Forall_impl; [exact HK|]; by intros c [_ ?]).
  by rewrite no_percent by (eapply Forall_impl; [exact HK|]; by intros c [? _]).
Qed.

Lemma unquote_plus_plain_witness :
  unquote_plus (lit "caf" ++ [0xE9] ++ lit "/menu (1).png")
  = lit "caf" ++ [0xE9] ++ lit "/menu (1).png".
Proof.
  apply (unquote_plus_plain (lit "caf" ++ [0xE9] ++ lit "/menu (1).png")).
  apply Forall_forall. intros c Hc. apply list_elem_of_In in Hc.
  assert (Hb : forallb (fun c => negb (c =? 37) && negb (c =? 43))
                 (lit "caf" ++ [0xE9] ++ lit "/menu (1).png") = true) by reflexivity.
  rewrite forallb_forall in Hb. specialize (Hb c Hc).
  apply andb_true_iff in Hb as [H37 H43].
  apply negb_true_iff in H37, H43. by rewrite N.eqb_neq in H37, H43.
Defined.

Lemma utf8_decode_scalar_upto (n : nat) (bs : list N) :
  (length bs <= n)%nat -> Forall (fun c => is_scalar c = true) (utf8_decode bs).
Proof.
  revert bs. induction n as [|n IH]; intros bs Hlen.
  { destruct bs; [constructor|cbn [length] in Hlen; lia]. }
  assert (Hfffd : is_scalar replacement_char = true) by reflexivity.
  destruct bs as [|b1 r1]; [constructor|].
  cbn [length] in Hlen. cbn [utf8_decode].
  unfold second_ok3, second_ok4, is_cont.
  repeat match goal with
  | |- context [match ?l with [] => _ | _ :: _ => _ end] =>
      destruct l; cbn [length] in Hlen
  | |- context [?a <? ?b] => destruct (N.ltb_spec a b)
  | |- context [?a <=? ?b] => destruct (N.leb_spec a b)
  | |- context [?a =? ?b] => destruct (N.eqb_spec a b)
  | |- context [andb _ _] => cbn [andb negb]
  | |- context [negb _] => cbn [andb negb]
  end;
  repeat (apply List.Forall_cons; [first [exact Hfffd | apply is_scalar_spec; lia]|]);
  first [apply List.Forall_nil | apply IH; cbn [length]; lia].
Qed.

Lemma utf8_decode_scalar (bs : list N) :
  Forall (fun c => is_scalar c = true) (utf8_decode bs).
Proof. by apply (utf8_decode_scalar_upto (length bs)). Qed.

Lemma ascii_runs_Forall (P : N -> Prop) (s : pystr) :
  Forall P s -> Forall (fun p : bool * pystr => Forall P p.2) (ascii_runs s).
Proof.
  induction 1 as [|c s Hc _ IH]; [constructor|].
  cbn [ascii_runs]. destruct (ascii_runs s) as [|[a run] rest].
  - repeat constructor. exact Hc.
  - apply Forall_cons in IH as [Hrun Hrest].
    destruct (Bool.eqb a (is_ascii c)); repeat (constructor; try done).
Qed.

(** X12.  Decoding never introduces an ill-formed character: when the
    notified key is made of Unicode scalar values (as every ASCII key
    is), so is the decoded key, whatever bytes its escapes name; bytes
    that are not UTF-8 come out as U+FFFD. *)
Theorem unquote_plus_scalar (K : pystr) :
  Forall (fun c => is_scalar c = true) K ->
  Forall (fun c => is_scalar c = true) (unquote_plus K).
Proof.
  intros HK.
  assert (Hmap : Forall (fun c => is_scalar c = true) (map plus_to_space K)).
  { apply Forall_map. eapply Forall_impl; [exact HK|].
    intros c Hc. cbn. unfold plus_to_space.
    destruct (N.eqb_spec c 43); [reflexivity|exact Hc]. }
  unfold unquote_plus, unquote.
  destruct (existsb (N.eqb 37) (map plus_to_space K)); [|exact Hmap].
  apply Forall_concat, Forall_map.
  eapply Forall_impl; [apply ascii_runs_Forall, Hmap|].
  intros [a run] Hrun. unfold unquote_run. cbn [fst snd] in *.
  destruct a; [apply utf8_decode_scalar|exact Hrun].
Qed.

Lemma unquote_plus_scalar_witness :
  Forall (fun c => is_scalar c = true) (unquote_plus (lit "%ED%A0%80+%FF%41")).
Proof.
  apply (unquote_plus_scalar (lit "%ED%A0%80+%FF%41")).
  apply Forall_scalar. reflexivity.
Defined.

(** ** The invocation as a whole *)

(** [lambda_handler] on any event, step by step. *)
Lemma lambda_handler_run `{!PyRuntime} {Ctx : Type} (context : Ctx) event w :
  lambda_handler event context w =
    match py_in (lit "Records") event with
    | Raise e => (Raise e, logged event w)
    | Ok true => handle_s3_event event (logged event w)
    | Ok false =>
        match py_in (lit "httpMethod") event with
        | Raise e => (Raise e, logged event w)
        | Ok true => handle_api_gateway_event event (logged event w)
        | Ok false => (Ok unknown_source_response, logged event w)
        end
    end.
Proof.
  unfold lambda_handler, bind, print, lift.
  destruct (py_in (lit "Records") event) as [[|]|e]; try reflexivity.
  destruct (py_in (lit "httpMethod") event) as [[|]|e]; reflexivity.
Qed.

Lemma py_in_raises s event e : py_in s event = Raise e -> e = TypeError.
Proof. destruct event; cbn [py_in]; congruence. Qed.

Lemma handle_s3_event_log event w res w' :
  handle_s3_event event w = (res, w') ->
  (exists k, res = Ok ingested_response /\ stdout w' = stdout w ++ [LogProcessed k])
  \/ (exists e, res = Raise e /\ stdout w' = stdout w ++ [LogS3Error e]).
Proof.
  unfold handle_s3_event, try_except, s3_try_block, bind, lift, head_object,
    put_item, print, ret, raise.
  intros Hrun.
  repeat case_match; simplify_eq; cbn [stdout add_call add_log set_table]; eauto.
Qed.

Lemma handle_api_gateway_event_log `{!PyRuntime} event w res w' :
  handle_api_gateway_event event w = (res, w') ->
  (exists r, res = Ok r /\ statusCode r <> 500%Z /\ body r <> None
             /\ stdout w' = stdout w)
  \/ (exists e, res = Ok internal_error_response
                /\ stdout w' = stdout w ++ [LogApiError e]).
Proof.
  unfold handle_api_gateway_event, try_except, api_try_block, bind, lift,
    get_item, print, ret, raise.
  rewrite json_dumps_not_found, json_dumps_internal_error.
  intros Hrun.
  repeat case_match; simplify_eq; cbn [stdout add_call add_log];
    first [ right; eexists; split; [reflexivity|reflexivity]
          | left; eexists; repeat split; done ].
Qed.

(** X13.  Every invocation prints the event first and at most one more
    line.  An exception that leaves the ingestion, and a 500 answer of
    the lookup, are always preceded by the line that names the
    exception; a successful ingestion prints the decoded key; every
    other answer prints nothing more.  The one exception raised without
    a line of its own is the [TypeError] of an event that is no
    container. *)
Theorem invocation_log `{!PyRuntime} {Ctx : Type} (context : Ctx)
    (event : json) (w : World) (res : result Response) (w' : World) :
  lambda_handler event context w = (res, w') ->
  exists more,
    stdout w' = stdout w ++ LogEventReceived event :: more
    /\ ((more = []
         /\ (res = Raise TypeError
             \/ exists r, res = Ok r /\ statusCode r <> 500%Z /\ body r <> None))
        \/ (exists k, more = [LogProcessed k] /\ res = Ok ingested_response)
        \/ (exists e, more = [LogS3Error e] /\ res = Raise e)
        \/ (exists e, more = [LogApiError e] /\ res = Ok internal_error_response)).
Proof.
  rewrite lambda_handler_run.
  destruct (py_in (lit "Records") event) as [[|]|e] eqn:Hrec.
  - intros Hrun. apply handle_s3_event_log in Hrun as [(k & -> & Hout)|(e & -> & Hout)];
      unfold logged in Hout; cbn [stdout add_log] in Hout.
    + exists [LogProcessed k]. split; [by rewrite Hout, <- app_assoc|]. eauto 6.
    + exists [LogS3Error e]. split; [by rewrite Hout, <- app_assoc|]. eauto 6.
  - destruct (py_in (lit "httpMethod") event) as [[|]|e] eqn:Hhttp.
    + intros Hrun.
      apply handle_api_gateway_event_log in Hrun
        as [(r & -> & Hstatus & Hbody & Hout)|(e & -> & Hout)];
        unfold logged in Hout; cbn [stdout add_log] in Hout.
      * exists []. split; [by rewrite Hout|]. left. eauto 6.
      * exists [LogApiError e]. split; [by rewrite Hout, <- app_assoc|]. eauto 7.
    + intros [= <- <-]. exists []. split; [done|]. left. split; [done|].
      right. by eexists.
    + intros [= <- <-]. apply py_in_raises in Hhttp as ->.
      exists []. split; [done|]. left. auto.
  - intros [= <- <-]. apply py_in_raises in Hrec as ->.
    exists []. split; [done|]. left. auto.
Qed.

Lemma invocation_log_witness :
  exists more,
    stdout (@lambda_handler plain_runtime unit
              (s3_notification (lit "imgs") (lit "a%20b.png")) tt unreachable_store).2
    = stdout unreachable_store
      ++ LogEventReceived (s3_notification (lit "imgs") (lit "a%20b.png")) :: more.
Proof.
  destruct (@invocation_log plain_runtime unit tt
              (s3_notification (lit "imgs") (lit "a%20b.png")) unreachable_store
              (@lambda_handler plain_runtime unit
                 (s3_notification (lit "imgs") (lit "a%20b.png")) tt
                 unreachable_store).1
              (@lambda_handler plain_runtime unit
                 (s3_notification (lit "imgs") (lit "a%20b.png")) tt
                 unreachable_store).2)
    as (more & Hout & _).
  - by destruct (@lambda_handler plain_runtime unit
                   (s3_notification (lit "imgs") (lit "a%20b.png")) tt
                   unreachable_store).
  - by exists more.
Defined.

(** X14.  An event that is not a dictionary never leads to a request
    and never to a success: a number, a boolean or null raises
    [TypeError]; a list or a string is searched for the two words like a
    dictionary, and the handler it is then given fails on its first
    subscript, the ingestion by raising [TypeError], the lookup by
    answering 500; otherwise the answer is 400. *)
Theorem event_not_a_dict `{!PyRuntime} {Ctx : Type} (context : Ctx)
    (event : json) (w : World) (res : result Response) (w' : World) :
  (forall d, event <> JDict d) ->
  lambda_handler event context w = (res, w') ->
  calls w' = calls w
  /\ table_items w' = table_items w
  /\ (res = Raise TypeError
      \/ res = Ok internal_error_response
      \/ res = Ok unknown_source_response).
Proof.
  intros Hnot. rewrite lambda_handler_run.
  assert (Hbucket : notification_bucket event = Raise TypeError).
  { destruct event; try reflexivity. by destruct (Hnot d). }
  assert (Hpath : path_image_name event = Raise TypeError).
  { destruct event; try reflexivity. by destruct (Hnot d). }
  destruct (py_in (lit "Records") event) as [[|]|e] eqn:Hrec.
  - rewrite (handle_s3_event_no_bucket _ _ _ Hbucket). intros [= <- <-]. auto.
  - destruct (py_in (lit "httpMethod") event) as [[|]|e] eqn:Hhttp.
    + rewrite (handle_api_gateway_event_caught event _ TypeError (logged event w)).
      * intros [= <- <-]. auto.
      * unfold api_try_block, bind, lift. by rewrite Hpath.
    + intros [= <- <-]. auto.
    + intros [= <- <-]. apply py_in_raises in Hhttp as ->. auto.
  - intros [= <- <-]. apply py_in_raises in Hrec as ->. auto.
Qed.

Lemma event_not_a_dict_witness :
  (@lambda_handler plain_runtime unit (JList [JStr (lit "httpMethod")]) tt
     scenario_ingested).1 = Raise TypeError
  \/ (@lambda_handler plain_runtime unit (JList [JStr (lit "httpMethod")]) tt
        scenario_ingested).1 = Ok internal_error_response
  \/ (@lambda_handler plain_runtime unit (JList [JStr (lit "httpMethod")]) tt
        scenario_ingested).1 = Ok unknown_source_response.
Proof.
  apply (@event_not_a_dict plain_runtime unit tt (JList [JStr (lit "httpMethod")])
           scenario_ingested _
           (@lambda_handler plain_runtime unit (JList [JStr (lit "httpMethod")]) tt
              scenario_ingested).2).
  - discriminate.
  - by destruct (@lambda_handler plain_runtime unit (JList [JStr (lit "httpMethod")])
                   tt scenario_ingested).
Defined.

(** The answer of the lookup is a function of the path parameter and of
    what the table holds and refuses. *)
Lemma handle_api_gateway_event_ext `{!PyRuntime} e1 e2 w1 w2 :
  path_image_name e1 = path_image_name e2 ->
  table_items w1 = table_items w2 ->
  get_fault w1 = get_fault w2 ->
  (handle_api_gateway_event e1 w1).1 = (handle_api_gateway_event e2 w2).1.
Proof.
  intros Hpath Htable Hget.
  unfold handle_api_gateway_event, try_except, api_try_block, bind, lift,
    get_item, print, ret, raise.
  rewrite Hpath, json_dumps_not_found, json_dumps_internal_error.
  destruct (path_image_name e2) as [v|e]; [|reflexivity].
  destruct (has_float v); [reflexivity|].
  destruct v as [| | | |k| |]; try reflexivity.
  rewrite Htable, Hget.
  destruct (get_fault w2 k); [reflexivity|].
  destruct (table_items w2 !! k) as [stored|]; [|reflexivity].
  cbn [fmap option_fmap option_map].
  destruct (normalize_size (deserialize_item stored)) as [item|e]; [|reflexivity].
  destruct (json_dumps (PyDict item)); reflexivity.
Qed.

(** X15.  Of a request the lookup reads the [imageName] path parameter
    and nothing else: two envelopes routed to it that agree on that
    parameter get the same answer from the same table, whatever their
    HTTP method, headers, query string or body. *)
Theorem answer_depends_on_name_only `{!PyRuntime} {Ctx : Type} (context : Ctx)
    (d1 d2 : list (pystr * json)) (w1 w2 : World) :
  dict_has (lit "Records") d1 = false -> dict_has (lit "httpMethod") d1 = true ->
  dict_has (lit "Records") d2 = false -> dict_has (lit "httpMethod") d2 = true ->
  path_image_name (JDict d1) = path_image_name (JDict d2) ->
  table_items w1 = table_items w2 ->
  get_fault w1 = get_fault w2 ->
  (lambda_handler (JDict d1) context w1).1 = (lambda_handler (JDict d2) context w2).1.
Proof.
  intros Hrec1 Hhttp1 Hrec2 Hhttp2 Hpath Htable Hget.
  rewrite !lambda_handler_http_method by done.
  by apply handle_api_gateway_event_ext.
Qed.

Lemma answer_depends_on_name_only_witness :
  (@lambda_handler plain_runtime unit (lookup_request (lit "a b.png")) tt
     scenario_ingested).1
  = (@lambda_handler plain_runtime unit
       (JDict [(lit "httpMethod", JStr (lit "DELETE"));
               (lit "headers", JDict [(lit "Accept", JStr (lit "text/html"))]);
               (lit "pathParameters", JDict [(lit "imageName", JStr (lit "a b.png"));
                                             (lit "version", JStr (lit "2"))]);
               (lit "body", JStr (lit "ignored"))])
       tt scenario_ingested).1.
Proof.
  apply (@answer_depends_on_name_only plain_runtime unit tt
           [(lit "httpMethod", JStr (lit "GET"));
            (lit "pathParameters", JDict [(lit "imageName", JStr (lit "a b.png"))])]
           [(lit "httpMethod", JStr (lit "DELETE"));
            (lit "headers", JDict [(lit "Accept", JStr (lit "text/html"))]);
            (lit "pathParameters", JDict [(lit "imageName", JStr (lit "a b.png"));
                                          (lit "version", JStr (lit "2"))]);
            (lit "body", JStr (lit "ignored"))]
           scenario_ingested scenario_ingested); reflexivity.
Defined.

(** X16.  End to end through the router: when the invocation for a
    notification returns, an invocation for a lookup request of the
    decoded key, on the world the first one left, answers 200 with the
    record of the object, provided the table answers the read. *)
Theorem ingest_then_lookup `{!PyRuntime} {Ctx : Type} (context : Ctx)
    (notification : json) (w : World) (r : Response) (w1 : World)
    (B K : pystr) (L : Z) (C : pystr) (T : datetime)
    (request : list (pystr * json)) :
  notification_bucket notification = Ok (JStr B) ->
  notification_key notification = Ok (JStr K) ->
  s3_objects w !! (B, unquote_plus K) = Some (mkHead (Some L) (Some C) (Some T)) ->
  lambda_handler notification context w = (Ok r, w1) ->
  dict_has (lit "Records") request = false ->
  dict_has (lit "httpMethod") request = true ->
  path_image_name (JDict request) = Ok (JStr (unquote_plus K)) ->
  get_fault w (unquote_plus K) = None ->
  lambda_handler (JDict request) context w1
  = (Ok (found_response (unquote_plus K) L C T),
     add_call (GetItem (JStr (unquote_plus K))) (logged (JDict request) w1)).
Proof.
  intros HB HK Hobj Hrun Hrec Hhttp Hpath Hget.
  destruct (notification_is_records _ _ HB) as (d & -> & Hrecords).
  rewrite lambda_handler_records in Hrun by done.
  destruct (handle_s3_event_ok_run _ _ _ _ Hrun)
    as (B' & K' & L' & C' & T' & HB' & HK' & _ & Hobj' & _ & _ & Hw1).
  rewrite HB in HB'. rewrite HK in HK'. injection HB' as <-. injection HK' as <-.
  cbn [s3_objects logged add_log] in Hobj'. rewrite Hobj in Hobj'.
  injection Hobj' as <- <- <-.
  rewrite lambda_handler_http_method by done.
  apply lookup_stored_record; [done|by rewrite Hw1|].
  rewrite Hw1. cbn [table_items logged add_log set_table add_call].
  by rewrite lookup_insert_eq.
Qed.

Lemma ingest_then_lookup_witness :
  @lambda_handler plain_runtime unit (lookup_request (lit "a b.png")) tt
    (@lambda_handler plain_runtime unit
       (s3_notification (lit "imgs") (lit "a%20b.png")) tt scenario_world).2
  = (Ok (found_response (lit "a b.png") 1024 (lit "image/png")
           (mkDatetime 2024 1 1 0 0 0 0 None)),
     add_call (GetItem (JStr (lit "a b.png")))
       (logged (lookup_request (lit "a b.png"))
          (@lambda_handler plain_runtime unit
             (s3_notification (lit "imgs") (lit "a%20b.png")) tt scenario_world).2)).
Proof.
  apply (@ingest_then_lookup plain_runtime unit tt
           (s3_notification (lit "imgs") (lit "a%20b.png")) scenario_world
           ingested_response _ (lit "imgs") (lit "a%20b.png")
           1024%Z (lit "image/png") (mkDatetime 2024 1 1 0 0 0 0 None)
           [(lit "httpMethod", JStr (lit "GET"));
            (lit "pathParameters", JDict [(lit "imageName", JStr (lit "a b.png"))])]);
    vm_compute; reflexivity.
Defined.


(** ** Bodies *)

Lemma hexdigit_lower_printable n :
  n < 16 -> is_printable (hexdigit_lower n) = true.
Proof.
  intros Hn. unfold is_printable, hexdigit_lower.
  destruct (N.ltb_spec n 10); apply andb_true_iff; rewrite !N.leb_le; lia.
Qed.

Lemma u_escape_printable n :
  n < 0x10000 -> Forall (fun c => is_printable c = true) (u_escape n).
Proof.
  intros Hn. unfold u_escape.
  repeat (apply List.Forall_cons;
          [first [reflexivity | apply hexdigit_lower_printable; lia]|]).
  apply List.Forall_nil.
Qed.

Lemma json_escape_char_printable c :
  c < 0x110000 -> Forall (fun c => is_printable c = true) (json_escape_char c).
Proof.
  intros Hc. unfold json_escape_char.
  repeat match goal with
  | |- context [?a =? ?b] => destruct (N.eqb_spec a b);
      [repeat (apply List.Forall_cons; [reflexivity|]); apply List.Forall_nil|]
  end.
  destruct ((32 <=? c) && (c <=? 126)) eqn:Hp.
  { repeat constructor. exact Hp. }
  destruct (N.ltb_spec c 0x10000); [by apply u_escape_printable|].
  apply Forall_app. split; apply u_escape_printable; lia.
Qed.

Lemma json_string_printable s :
  forallb (fun c => c <? 0x110000) s = true ->
  Forall (fun c => is_printable c = true) (json_string s).
Proof.
  intros Hs. unfold json_string.
  apply Forall_app. split; [by repeat constructor|].
  apply Forall_app. split; [|by repeat constructor].
  induction s as [|c s IH]; [constructor|].
  cbn [forallb] in Hs. apply andb_true_iff in Hs as [Hc Hs].
  cbn [flat_map]. apply Forall_app. split; [|by apply IH].
  apply json_escape_char_printable. by apply N.ltb_lt.
Qed.

Lemma string_of_uint_printable u :
  Forall (fun c => is_printable c = true)
         (lit (DecimalString.NilEmpty.string_of_uint u)).
Proof.
  induction u; cbn [DecimalString.NilEmpty.string_of_uint lit];
    [constructor|apply List.Forall_cons; [reflexivity|assumption]..].
Qed.

Lemma int_str_printable n :
  Forall (fun c => is_printable c = true) (int_str n).
Proof.
  unfold int_str, DecimalString.NilZero.string_of_int,
    DecimalString.NilZero.string_of_uint.
  destruct (Z.to_int n) as [u|u]; [|cbn [lit]; apply List.Forall_cons; [reflexivity|]];
    (destruct u; [by repeat constructor|apply string_of_uint_printable..]).
Qed.

Lemma join_comma_printable parts :
  Forall (Forall (fun c => is_printable c = true)) parts ->
  Forall (fun c => is_printable c = true) (join_comma parts).
Proof.
  induction 1 as [|p parts Hp Hparts IH]; [constructor|].
  cbn [join_comma]. destruct parts as [|q parts]; [exact Hp|].
  apply Forall_app. split; [exact Hp|].
  apply Forall_app. split; [by repeat constructor|exact IH].
Qed.

Lemma sequence_map_Forall {A B} (f : A -> result B) (Q : B -> Prop) l parts :
  Forall (fun x => forall s, f x = Ok s -> Q s) l ->
  sequence (map f l) = Ok parts ->
  Forall Q parts.
Proof.
  intros Hl. revert parts. induction Hl as [|x l Hx _ IH]; intros parts.
  - intros [= <-]. constructor.
  - cbn [map sequence]. destruct (f x) as [s|e] eqn:Hfx; [|discriminate].
    destruct (sequence (map f l)) as [rest|e]; [|discriminate].
    intros [= <-]. constructor; [by apply Hx|by apply IH].
Qed.

(** [json.dumps] writes printable ASCII only. *)
Lemma json_dumps_printable :
  forall v s, valid_text v = true -> json_dumps v = Ok s ->
              Forall (fun c => is_printable c = true) s.
Proof.
  fix IH 1. intros v s Hv Hs. destruct v as [|[|]|n|x|t|l|d].
  - injection Hs as <-. by repeat constructor.
  - injection Hs as <-. by repeat constructor.
  - injection Hs as <-. by repeat constructor.
  - injection Hs as <-. apply int_str_printable.
  - discriminate.
  - injection Hs as <-. by apply json_string_printable.
  - cbn [json_dumps] in Hs.
    destruct (sequence (map json_dumps l)) as [parts|e] eqn:Hparts; [|discriminate].
    injection Hs as <-.
    apply List.Forall_cons; [reflexivity|].
    apply Forall_app. split; [|by repeat constructor].
    apply join_comma_printable.
    apply (sequence_map_Forall json_dumps _ l parts); [|exact Hparts].
    cbn [valid_text] in Hv. clear Hparts.
    induction l as [|x l IHl]; [constructor|].
    cbn [forallb] in Hv. apply andb_true_iff in Hv as [Hx Hl].
    constructor; [intros s Hs; by apply (IH x)|by apply IHl].
  - cbn [json_dumps] in Hs.
    match type of Hs with
    | match sequence (map ?f d) with _ => _ end = _ =>
        destruct (sequence (map f d)) as [parts|e] eqn:Hparts; [|discriminate];
        injection Hs as <-;
        apply List.Forall_cons; [reflexivity|];
        apply Forall_app; split; [|by repeat constructor];
        apply join_comma_printable;
        apply (sequence_map_Forall f _ d parts); [|exact Hparts]
    end.
    cbn [valid_text] in Hv. clear Hparts.
    induction d as [|[k x] d IHd]; [constructor|].
    cbn [forallb fst snd] in Hv.
    apply andb_true_iff in Hv as [Hkx Hd]. apply andb_true_iff in Hkx as [Hk Hx].
    constructor; [|by apply IHd].
    intros s. cbn [fst snd].
    destruct (json_dumps x) as [sx|e] eqn:Hsx; [|discriminate].
    intros Heq.
    assert (s = json_string k ++ lit ": " ++ sx) as -> by congruence.
    apply Forall_app. split; [by apply json_string_printable|].
    apply Forall_app. split; [by repeat constructor|by apply (IH x)].
Qed.

Lemma dict_set_valid_text k n item :
  is_Some (dict_get k item) ->
  valid_text (PyDict item) = true ->
  valid_text (PyDict (dict_set k (PyInt n) item)) = true.
Proof.
  cbn [valid_text]. induction item as [|[k' v'] item IH]; cbn [dict_get dict_set].
  - by intros [? ?].
  - destruct (key_eqb k' k); cbn [forallb fst snd]; intros Hsome Hvalid;
      apply andb_true_iff in Hvalid as [Hhead Hrest];
      apply andb_true_iff in Hhead as [Hkey Hval];
      apply andb_true_iff; (split; [apply andb_true_iff; by split|]).
    + exact Hrest.
    + by apply IH.
Qed.

Lemma normalize_size_valid_text `{!PyRuntime} item item' :
  valid_text (PyDict item) = true ->
  normalize_size item = Ok item' ->
  valid_text (PyDict item') = true.
Proof.
  intros Hvalid. unfold normalize_size.
  destruct (dict_get (lit "size") item) as [v|] eqn:Hsize; [|discriminate].
  destruct (py_int v) as [n|e]; [|discriminate]. intros [= <-].
  apply dict_set_valid_text; [by exists v|exact Hvalid].
Qed.

(** The answers of the lookup, by where their body comes from. *)
Lemma handle_api_gateway_event_body `{!PyRuntime} event w r w' :
  handle_api_gateway_event event w = (Ok r, w') ->
  r = not_found_response \/ r = internal_error_response
  \/ exists k stored item b,
       table_items w !! k = Some stored
       /\ normalize_size (deserialize_item stored) = Ok item
       /\ json_dumps (PyDict item) = Ok b
       /\ body r = Some b.
Proof.
  unfold handle_api_gateway_event, try_except, api_try_block, bind, lift,
    get_item, print, ret, raise.
  rewrite json_dumps_not_found, json_dumps_internal_error.
  intros Hrun.
  repeat case_match; simplify_eq; auto.
  all: right; right.
  all: match goal with
       | Hfm : _ <$> table_items ?w0 !! ?k = Some _ |- _ =>
           destruct (table_items w0 !! k) as [stored|] eqn:Hstored; [|discriminate];
           injection Hfm as <-; exists k, stored
       end.
  all: eexists _, _; repeat split; eassumption.
Qed.

(** X17.  Every body the program returns is printable ASCII, whatever
    the characters of the keys and of the stored attributes: [json.dumps]
    escapes everything else.  (Strings are sequences of code points.) *)
Theorem bodies_are_printable_ascii `{!PyRuntime} {Ctx : Type} (context : Ctx)
    (event : json) (w : World) (r : Response) (w' : World) (b : pystr) :
  (forall k stored, table_items w !! k = Some stored ->
                    valid_text (PyDict (deserialize_item stored)) = true) ->
  lambda_handler event context w = (Ok r, w') ->
  body r = Some b ->
  Forall (fun c => is_printable c = true) b.
Proof.
  intros Hvalid. rewrite lambda_handler_run.
  destruct (py_in (lit "Records") event) as [[|]|e]; [| |discriminate].
  - intros Hrun Hbody.
    destruct (handle_s3_event_outcome event (logged event w))
      as [(e & w1 & He)|(w1 & Hok)]; rewrite Hrun in *; by simplify_eq.
  - destruct (py_in (lit "httpMethod") event) as [[|]|e]; [| |discriminate].
    + intros Hrun Hbody.
      apply handle_api_gateway_event_body in Hrun
        as [->|[->|(k & stored & item & b' & Hstored & Hnorm & Hdumps & Hb)]].
      * injection Hbody as <-. apply Forall_forall. intros c Hc.
        apply list_elem_of_In in Hc.
        by apply (proj1 (forallb_forall is_printable (error_body "Image not found"))).
      * injection Hbody as <-. apply Forall_forall. intros c Hc.
        apply list_elem_of_In in Hc.
        by apply (proj1 (forallb_forall is_printable
                           (error_body "Internal server error"))).
      * rewrite Hbody in Hb. injection Hb as <-.
        apply (json_dumps_printable (PyDict item)); [|exact Hdumps].
        eapply normalize_size_valid_text; [|exact Hnorm].
        by apply (Hvalid k).
    + intros [= <- <-] Hbody. injection Hbody as <-.
      apply Forall_forall. intros c Hc. apply list_elem_of_In in Hc.
      by apply (proj1 (forallb_forall is_printable (quoted "Unknown event source"))).
Qed.

Lemma bodies_are_printable_ascii_witness :
  Forall (fun c => is_printable c = true)
         (image_body (lit "a b.png") 1024 (lit "image/png")
                     (mkDatetime 2024 1 1 0 0 0 0 None)).
Proof.
  apply (@bodies_are_printable_ascii plain_runtime unit tt
           (lookup_request (lit "a b.png")) scenario_ingested
           (found_response (lit "a b.png") 1024 (lit "image/png")
              (mkDatetime 2024 1 1 0 0 0 0 None))
           (add_call (GetItem (JStr (lit "a b.png")))
              (logged (lookup_request (lit "a b.png")) scenario_ingested))).
  - intros k stored Hstored.
    destruct (decide (k = lit "a b.png")) as [->|Hne].
    + assert (Hrec : table_items scenario_ingested !! lit "a b.png"
                     = Some (serialize_item
                               (image_item (lit "a b.png") 1024 (lit "image/png")
                                  (mkDatetime 2024 1 1 0 0 0 0 None))))
        by (vm_compute; reflexivity).
      rewrite Hrec in Hstored. injection Hstored as <-. reflexivity.
    + assert (Htable : table_items scenario_ingested
                       = {[ lit "a b.png"
                            := serialize_item
                                 (image_item (lit "a b.png") 1024 (lit "image/png")
                                    (mkDatetime 2024 1 1 0 0 0 0 None)) ]})
        by (vm_compute; reflexivity).
      rewrite Htable, lookup_singleton_ne in Hstored by done. discriminate.
  - vm_compute. reflexivity.
  - reflexivity.
Defined.
